(** * Mini-Bot: a shallow embedding of main.py (FastAPI backend + Telegram bot)

    The SQLite database is modelled as one record of finite maps, one per
    table, keyed by the table's primary key.  Each HTTP/bot handler becomes a
    function from the database to a result and the database after the
    handler's [commit] (a handler that closes its connection without commit
    returns the database it started from: SQLite rolls back).  The handlers
    are modelled from the point where [verify_init_data] has produced the
    caller's id; session verification itself is the module [Session].
    Python strings are held as their UTF-8 bytes; [isdigit], [int] and
    [strip] decode them and follow CPython 3.11's Unicode tables.  Any
    channel check can be given to the handlers, and the program's own check,
    [is_member_of_channel], is modelled as well. *)

From Stdlib Require Import ZArith Lia String Ascii List Bool.
From stdpp Require Import base gmap sets sorting.

Open Scope Z_scope.

(* ------------------------------------------------------------------ *)
(** ** Tables (see [migrate]) *)

(** A row of [users].  [coins], [ads_watched] and [ad_counter] are
    [INTEGER DEFAULT 0] and every INSERT of the program either sets them or
    relies on that default, so they are never NULL and are kept as [Z];
    the TEXT / INTEGER columns without default are [option]s. *)
Record user_row := mk_user {
  username : string;
  coins : Z;
  referrer_id : option Z;
  joined_at : option string;
  ads_watched : Z;
  ad_counter : Z;
  boost_until : option string;
  last_daily : option string
}.

Record task_row := mk_task {
  title : string;
  description : string;
  link : string;
  reward : Z
}.

Record submission_row := mk_submission {
  sub_user_id : Z;
  sub_task_id : Z;
  file_path : string;
  status : string;
  submitted_at : string;
  reviewed_by : option Z;
  review_reason : option string
}.

Record db := mk_db {
  users : gmap Z user_row;
  tasks : gmap Z task_row;
  task_submissions : gmap Z submission_row;
  verifiers : gset Z;
  referrals : gset (Z * Z)
}.

(** Field updates of the rows, as the UPDATE statements write them. *)
Definition set_users (d : db) (u : gmap Z user_row) : db :=
  mk_db u (tasks d) (task_submissions d) (verifiers d) (referrals d).
Definition set_tasks (d : db) (t : gmap Z task_row) : db :=
  mk_db (users d) t (task_submissions d) (verifiers d) (referrals d).
Definition set_submissions (d : db) (s : gmap Z submission_row) : db :=
  mk_db (users d) (tasks d) s (verifiers d) (referrals d).
Definition set_referrals (d : db) (r : gset (Z * Z)) : db :=
  mk_db (users d) (tasks d) (task_submissions d) (verifiers d) r.

(** [coins = COALESCE(coins,0) + amount] *)
Definition add_coins (amount : Z) (u : user_row) : user_row :=
  mk_user (username u) (coins u + amount) (referrer_id u) (joined_at u)
    (ads_watched u) (ad_counter u) (boost_until u) (last_daily u).

(** [coins = COALESCE(coins,0) + 100, ads_watched = COALESCE(ads_watched,0) + 1] *)
Definition add_ad (amount : Z) (u : user_row) : user_row :=
  mk_user (username u) (coins u + amount) (referrer_id u) (joined_at u)
    (ads_watched u + 1) (ad_counter u) (boost_until u) (last_daily u).

(** [ad_counter = ?] *)
Definition set_ad_counter (n : Z) (u : user_row) : user_row :=
  mk_user (username u) (coins u) (referrer_id u) (joined_at u)
    (ads_watched u) n (boost_until u) (last_daily u).

(** [boost_until = ?, ad_counter = 0] *)
Definition set_boost (until : string) (u : user_row) : user_row :=
  mk_user (username u) (coins u) (referrer_id u) (joined_at u)
    (ads_watched u) 0 (Some until) (last_daily u).

(** [coins = COALESCE(coins,0) + ?, last_daily = ?] *)
Definition add_daily (amount : Z) (day : string) (u : user_row) : user_row :=
  mk_user (username u) (coins u + amount) (referrer_id u) (joined_at u)
    (ads_watched u) (ad_counter u) (boost_until u) (Some day).

(** [status = ?, reviewed_by = ?, review_reason = ?] *)
Definition set_review (st : string) (by_ : Z) (reason : string)
    (s : submission_row) : submission_row :=
  mk_submission (sub_user_id s) (sub_task_id s) (file_path s) st
    (submitted_at s) (Some by_) (Some reason).

(** [INSERT OR IGNORE]: the row is added only when the key is free. *)
Definition insert_or_ignore {V} (k : Z) (v : V) (m : gmap Z V) : gmap Z V :=
  match m !! k with
  | Some _ => m
  | None => <[k:=v]> m
  end.

(** [UPDATE users SET coins = COALESCE(coins,0) + ? WHERE user_id = ?]:
    the ledger credit of the program.  An UPDATE whose WHERE matches no row
    changes nothing, which is [alter] on a missing key. *)
Definition credit (user_id amount : Z) (d : db) : db :=
  set_users d (alter (add_coins amount) user_id (users d)).

(* ------------------------------------------------------------------ *)
(** ** Small string helpers *)

(** [s.replace("Z", "")] *)
Fixpoint strip_Z (s : string) : string :=
  match s with
  | EmptyString => EmptyString
  | String c r => if Ascii.eqb c "Z"%char then strip_Z r else String c (strip_Z r)
  end.

Definition is_ascii_digit (c : ascii) : bool :=
  let n := Ascii.nat_of_ascii c in (48 <=? n)%nat && (n <=? 57)%nat.

(** Non-empty and all ASCII digits: the decimal time stamps of the test
    environment below. *)
Fixpoint all_digits (s : string) : bool :=
  match s with
  | EmptyString => true
  | String c r => is_ascii_digit c && all_digits r
  end.

Definition isdigit (s : string) : bool :=
  match s with
  | EmptyString => false
  | _ => all_digits s
  end.

(** The value of an ASCII digit string. *)
Fixpoint int_of_digits_acc (acc : Z) (s : string) : Z :=
  match s with
  | EmptyString => acc
  | String c r => int_of_digits_acc (acc * 10 + (Z.of_nat (Ascii.nat_of_ascii c) - 48)) r
  end.

Definition int_of_digits (s : string) : Z := int_of_digits_acc 0 s.

(** *** Python [str] as UTF-8

    A Python [str] is held as the bytes of its UTF-8 encoding.  The
    operations the program applies with an ASCII argument ([split('/')],
    [rstrip('/')], [rfind('.')], the ["k=v"] joins, comparison of keys) give
    on these bytes what they give on the code points; [isdigit], [int] and
    [strip] look at the code points, decoded here. *)

Definition byte_val (b : ascii) : Z := Z.of_nat (Ascii.nat_of_ascii b).

Definition is_cont (b : ascii) : bool := (128 <=? byte_val b) && (byte_val b <? 192).

(** The bytes of each code point, left to right.  A byte that starts no
    complete sequence stands alone (it occurs in no encoded [str]). *)
Fixpoint utf8_chunks (l : list ascii) : list (list ascii) :=
  match l with
  | [] => []
  | b0 :: r =>
      if byte_val b0 <? 192 then [b0] :: utf8_chunks r
      else if byte_val b0 <? 224 then
        match r with
        | b1 :: r1 => if is_cont b1 then [b0; b1] :: utf8_chunks r1 else [b0] :: utf8_chunks r
        | [] => [[b0]]
        end
      else if byte_val b0 <? 240 then
        match r with
        | b1 :: b2 :: r2 =>
            if is_cont b1 && is_cont b2 then [b0; b1; b2] :: utf8_chunks r2
            else [b0] :: utf8_chunks r
        | _ => [b0] :: utf8_chunks r
        end
      else if byte_val b0 <? 248 then
        match r with
        | b1 :: b2 :: b3 :: r3 =>
            if is_cont b1 && is_cont b2 && is_cont b3 then [b0; b1; b2; b3] :: utf8_chunks r3
            else [b0] :: utf8_chunks r
        | _ => [b0] :: utf8_chunks r
        end
      else [b0] :: utf8_chunks r
  end.

(** The code point of one chunk; -1 for a stray byte. *)
Definition chunk_cp (c : list ascii) : Z :=
  match c with
  | [b0] => if byte_val b0 <? 128 then byte_val b0 else -1
  | [b0; b1] => (byte_val b0 - 192) * 64 + (byte_val b1 - 128)
  | [b0; b1; b2] => (byte_val b0 - 224) * 4096 + (byte_val b1 - 128) * 64 + (byte_val b2 - 128)
  | [b0; b1; b2; b3] =>
      (byte_val b0 - 240) * 262144 + (byte_val b1 - 128) * 4096 + (byte_val b2 - 128) * 64
      + (byte_val b3 - 128)
  | _ => -1
  end.

Definition code_points (s : string) : list Z :=
  map chunk_cp (utf8_chunks (list_ascii_of_string s)).

(** The Unicode database of CPython 3.11 (Unicode 14.0).  The decimal
    digits ([c.isdecimal()], general category Nd) come in runs of ten
    consecutive code points of values 0..9; these are the runs' zeros. *)
Definition DECIMAL_ZEROS : list Z :=
  [48; 1632; 1776; 1984; 2406; 2534; 2662; 2790; 2918; 3046; 3174; 3302; 3430; 3558; 3664;
   3792; 3872; 4160; 4240; 6112; 6160; 6470; 6608; 6784; 6800; 6992; 7088; 7232; 7248; 42528;
   43216; 43264; 43472; 43504; 43600; 44016; 65296; 66720; 68912; 69734; 69872; 69942; 70096;
   70384; 70736; 70864; 71248; 71360; 71472; 71904; 72016; 72784; 73040; 73120; 92768; 92864;
   93008; 120782; 120792; 120802; 120812; 120822; 123200; 123632; 125264; 130032].

(** The characters with a digit value that are not decimal (superscripts,
    subscripts, circled and parenthesized digits, ...): [c.isdigit()] holds
    and [int(c)] raises. *)
Definition DIGIT_ONLY_RANGES : list (Z * Z) :=
  [(178, 179); (185, 185); (4969, 4977); (6618, 6618); (8304, 8304); (8308, 8313);
   (8320, 8329); (9312, 9320); (9332, 9340); (9352, 9360); (9450, 9450); (9461, 9469);
   (9471, 9471); (10102, 10110); (10112, 10120); (10122, 10130); (68160, 68163);
   (69216, 69224); (69714, 69722); (127232, 127242)].

(** [unicodedata.decimal(c)], [None] for a non-decimal character. *)
Definition decimal_value (cp : Z) : option Z :=
  match List.find (fun z => (z <=? cp) && (cp <=? z + 9)) DECIMAL_ZEROS with
  | Some z => Some (cp - z)
  | None => None
  end.

Definition py_char_isdigit (cp : Z) : bool :=
  match decimal_value cp with
  | Some _ => true
  | None => existsb (fun r => (fst r <=? cp) && (cp <=? snd r)) DIGIT_ONLY_RANGES
  end.

(** [s.isdigit()]: non-empty, every character with a digit value. *)
Definition py_isdigit (s : string) : bool :=
  match code_points s with
  | [] => false
  | cps => forallb py_char_isdigit cps
  end.

(** [sys.int_info.default_max_str_digits]. *)
Definition INT_MAX_STR_DIGITS : nat := 4300.

Fixpoint decimal_acc (acc : Z) (cps : list Z) : option Z :=
  match cps with
  | [] => Some acc
  | c :: r => match decimal_value c with
              | Some v => decimal_acc (acc * 10 + v) r
              | None => None
              end
  end.

(** [int(s)] for a string [s] that passed [isdigit] (so without sign,
    blanks or underscores): every character is read by its decimal value;
    [None] is the ValueError for a non-decimal character such as '²' or for
    more than 4300 digits. *)
Definition py_int_digits (s : string) : option Z :=
  let cps := code_points s in
  if (INT_MAX_STR_DIGITS <? length cps)%nat then None else decimal_acc 0 cps.

(** [c.isspace()] (CPython's [Py_UNICODE_ISSPACE]): the characters that
    [str.strip()] removes. *)
Definition WHITESPACE : list Z :=
  [9; 10; 11; 12; 13; 28; 29; 30; 31; 32; 133; 160; 5760; 8192; 8193; 8194; 8195; 8196;
   8197; 8198; 8199; 8200; 8201; 8202; 8232; 8233; 8239; 8287; 12288].

Definition py_isspace (cp : Z) : bool := existsb (Z.eqb cp) WHITESPACE.

(** Domain constants of the handlers. *)
Definition AD_REWARD : Z := 100.
Definition DAILY_REWARD : Z := 50.
Definition REFERRAL_BONUS : Z := 200.
Definition START_COINS : Z := 100.
(** [timedelta(hours=2)]; time stamps are microseconds since the epoch. *)
Definition TWO_HOURS : Z := 2 * 3600 * 1000000.

Section Handlers.

(** The environment of the handlers: the datetime conversions, the
    channel check [is_member_of_channel] and the [ADMIN_IDS] list.  The
    check is a parameter so that the handlers' logic can be read for any
    answer of Telegram; the program's own check, [is_member_of_channel]
    after the machine below, answers [false] for every user. *)
Variable fromisoformat : string -> option Z.  (* datetime.fromisoformat, None when it raises *)
Variable isoformat : Z -> string.             (* datetime.isoformat() *)
Variable date_isoformat : Z -> string.        (* utcnow().date().isoformat() *)
Variable is_member_of_channel : Z -> bool.
Variable ADMIN_IDS : list Z.

(** Boost test of [review_submission] (the same test as [balance]):
    [if brow and brow[0]: try: until = fromisoformat(brow[0].replace("Z",""));
    if until > utcnow(): if_b = True  except: if_b = False]. *)
Definition boost_active (now : Z) (bu : option string) : bool :=
  match bu with
  | None => false
  | Some s =>
      if String.eqb s "" then false
      else match fromisoformat (strip_Z s) with
           | Some until => Z.ltb now until
           | None => false
           end
  end.

Definition is_authorized (uid : Z) (d : db) : bool :=
  existsb (Z.eqb uid) ADMIN_IDS || bool_decide (uid ∈ verifiers d).

Inductive review_result :=
| ReviewHTTPError (code : Z) (detail : string)
| ReviewAlready                      (* {"ok": False, "error": "already reviewed"} *)
| ReviewApproved (awarded : Z)       (* {"ok": True, "awarded": reward} *)
| ReviewRejected.                    (* {"ok": True, "msg": "Rejected"} *)

(** [review_submission], after [verify_init_data] gave the caller [uid]. *)
Definition review_submission (now uid sub_id : Z) (action reason : string)
    (d : db) : review_result * db :=
  if (sub_id =? 0) || negb (String.eqb action "approve" || String.eqb action "reject")
  then (ReviewHTTPError 400 "init_data, submission_id and valid action required", d)
  else if negb (is_authorized uid d)
  then (ReviewHTTPError 403 "Not authorized", d)
  else match task_submissions d !! sub_id with
  | None => (ReviewHTTPError 404 "Not found", d)
  | Some row =>
      let target_uid := sub_user_id row in
      let task_id := sub_task_id row in
      if negb (String.eqb (status row) "pending") then (ReviewAlready, d)
      else if String.eqb action "approve" then
        let base := match tasks d !! task_id with Some r => reward r | None => 0 end in
        let if_b := match users d !! target_uid with
                    | Some brow => boost_active now (boost_until brow)
                    | None => false
                    end in
        let reward' := if if_b then base * 2 else base in
        let d1 := credit target_uid reward' d in
        let d2 := set_submissions d1
                    (alter (set_review "approved" uid reason) sub_id (task_submissions d1)) in
        (ReviewApproved reward', d2)
      else
        (ReviewRejected,
         set_submissions d (alter (set_review "rejected" uid reason) sub_id (task_submissions d)))
  end.

Inductive admin_result :=
| AdminHTTPError (code : Z) (detail : string)
| AdminOk.

(** [delete_task]: admins only, [DELETE FROM tasks WHERE task_id = ?]. *)
Definition delete_task (uid task_id : Z) (d : db) : admin_result * db :=
  if task_id =? 0 then (AdminHTTPError 400 "init_data and task_id required", d)
  else if negb (existsb (Z.eqb uid) ADMIN_IDS) then (AdminHTTPError 403 "Not authorized", d)
  else (AdminOk, set_tasks d (delete task_id (tasks d))).

Inductive ad_result :=
| AdJoinChannel                       (* {"ok": False, "error": "join_channel"} *)
| AdOk (coins_awarded coins_total ads_watched_total ads_to_next_boost : Z)
       (boost_activated : option string)
| AdInternalError.                    (* a missing row after the INSERT (unreachable) *)

(** [ad_watched], after [verify_init_data] gave the caller [uid] and the
    display name [uname]; [now] is [datetime.utcnow()]. *)
Definition ad_watched (now uid : Z) (uname : string) (d : db) : ad_result * db :=
  if negb (is_member_of_channel uid) then (AdJoinChannel, d)
  else
    let coins_awarded := AD_REWARD in
    let u0 := insert_or_ignore uid (mk_user uname 0 None None 0 0 None None) (users d) in
    let u1 := alter (add_ad coins_awarded) uid u0 in
    match u1 !! uid with
    | None => (AdInternalError, d)
    | Some row =>
        let cnt := ad_counter row + 1 in
        let '(u2, boost_activated, ads_to_next) :=
          if 3 <=? cnt then
            let until := (isoformat (now + TWO_HOURS) ++ "Z")%string in
            (alter (set_boost until) uid u1, Some until, 3)
          else (alter (set_ad_counter cnt) uid u1, None, 3 - cnt) in
        let d' := set_users d u2 in
        match u2 !! uid with
        | None => (AdInternalError, d)
        | Some r => (AdOk coins_awarded (coins r) (ads_watched r) ads_to_next boost_activated, d')
        end
    end.

Inductive daily_result :=
| DailyAlready                        (* {"ok": False, "error": "already_claimed"} *)
| DailyOk (awarded : Z).              (* {"ok": True, "awarded": reward} *)

(** [daily_claim].  The already-claimed path closes the connection without
    commit, so its INSERT OR IGNORE is rolled back: it returns [d]. *)
Definition daily_claim (now uid : Z) (uname : string) (d : db) : daily_result * db :=
  let u0 := insert_or_ignore uid
              (mk_user uname 0 None (Some (isoformat now)) 0 0 None None) (users d) in
  let last := match u0 !! uid with Some row => last_daily row | None => None end in
  let now_date := date_isoformat now in
  if bool_decide (last = Some now_date) then (DailyAlready, d)
  else (DailyOk DAILY_REWARD,
        set_users d (alter (add_daily DAILY_REWARD now_date) uid u0)).

(** [referrer_id = int(args[0]) if args and args[0].isdigit() else None]:
    [StartValueError] is the ValueError of [int] on a digit string it
    cannot read ('²', or more than 4300 digits). *)
Inductive start_arg := NoReferrer | Referrer (r : Z) | StartValueError.

Definition parse_start_arg (args : list string) : start_arg :=
  match args with
  | a :: _ =>
      if py_isdigit a then
        match py_int_digits a with Some r => Referrer r | None => StartValueError end
      else NoReferrer
  | [] => NoReferrer
  end.

Definition start_referrer (args : list string) : option Z :=
  match parse_start_arg args with Referrer r => Some r | _ => None end.

(** The store effect of the bot's [/start] handler [bot_start] for the
    Telegram user [uid] named [uname] with command arguments [args]; the
    membership check and the replies that follow the commit do not touch
    the store.  The ValueError of line 447 ends the handler before the
    connection is opened: the store is unchanged. *)
Definition bot_start (now uid : Z) (uname : string) (args : list string) (d : db) : db :=
  match parse_start_arg args with
  | StartValueError => d
  | referrer =>
      let d1 := set_users d (insert_or_ignore uid
                  (mk_user uname START_COINS None (Some (isoformat now)) 0 0 None None) (users d)) in
      match referrer with
      | Referrer r =>
          if negb (r =? 0) && negb (r =? uid) then
            let d2 := set_referrals d1 ({[(r, uid)]} ∪ referrals d1) in
            credit r REFERRAL_BONUS d2
          else d1
      | _ => d1
      end
  end.


End Handlers.

(* ------------------------------------------------------------------ *)
(** ** Session verification: [verify_init_data] *)

Module Session.

(** A Python dict built by [dict(parse_qsl(...))]: an association list in
    first-insertion order, where a repeated key overwrites the value in
    place. *)
Fixpoint dict_set (k v : string) (d : list (string * string)) : list (string * string) :=
  match d with
  | [] => [(k, v)]
  | (k', v') :: r => if String.eqb k k' then (k', v) :: r else (k', v') :: dict_set k v r
  end.

Definition dict_of_pairs (l : list (string * string)) : list (string * string) :=
  fold_left (fun acc kv => dict_set (fst kv) (snd kv) acc) l [].

Fixpoint dict_get (k : string) (d : list (string * string)) : option string :=
  match d with
  | [] => None
  | (k', v) :: r => if String.eqb k k' then Some v else dict_get k r
  end.

Fixpoint dict_remove (k : string) (d : list (string * string)) : list (string * string) :=
  match d with
  | [] => []
  | (k', v) :: r => if String.eqb k k' then dict_remove k r else (k', v) :: dict_remove k r
  end.

(** [sorted(keys)]: insertion sort under Python's code-point order of str. *)
Fixpoint insert_key (k : string) (l : list string) : list string :=
  match l with
  | [] => [k]
  | k' :: r => if String.ltb k k' then k :: l else k' :: insert_key k r
  end.

Fixpoint sort_keys (l : list string) : list string :=
  match l with
  | [] => []
  | k :: r => insert_key k (sort_keys r)
  end.

Definition newline : string := String (Ascii.ascii_of_nat 10) EmptyString.

(** ["\n".join(f"{k}={parsed[k]}" for k in sorted(parsed.keys()))] *)
Definition data_check_string (parsed : list (string * string)) : string :=
  String.concat newline
    (map (fun k => (k ++ "=" ++ match dict_get k parsed with Some v => v | None => "" end)%string)
       (sort_keys (map fst parsed))).

(** The fields that are signed: the parsed dict with ['hash'] popped. *)
Definition fields_of (pairs : list (string * string)) : list (string * string) :=
  dict_remove "hash" (dict_of_pairs pairs).

Section Verify.

(** [hashlib.sha256(bot_token.encode()).digest()] and
    [hmac.new(key, msg, hashlib.sha256).hexdigest()]; bytes as strings. *)
Variable sha256_digest : string -> string.
Variable hmac_sha256_hex : string -> string -> string.
(** [json.loads], [None] when it raises. *)
Variable json_value : Type.
Variable json_loads : string -> option json_value.

Inductive field := Raw (s : string) | Decoded (j : json_value).

Definition signature (bot_token : string) (parsed : list (string * string)) : string :=
  hmac_sha256_hex (sha256_digest bot_token) (data_check_string parsed).

(** [if 'user' in parsed: try: parsed['user'] = json.loads(parsed['user'])
    except: pass] *)
Definition decode_fields (parsed : list (string * string)) : list (string * field) :=
  map (fun kv => (fst kv,
         if String.eqb (fst kv) "user"
         then match json_loads (snd kv) with Some j => Decoded j | None => Raw (snd kv) end
         else Raw (snd kv))) parsed.

(** [verify_init_data] on the key/value list produced by
    [parse_qsl(init_data, strict_parsing=True)] (URL-decoded, in order);
    [inl msg] is the [ValueError] the handlers turn into HTTP 401. *)
Definition verify_init_data (pairs : list (string * string)) (bot_token : string)
    : string + list (string * field) :=
  let parsed := dict_of_pairs pairs in
  match dict_get "hash" parsed with
  | None => inl "Missing hash"%string
  | Some check_hash =>
      let parsed := dict_remove "hash" parsed in
      let calculated_hash := signature bot_token parsed in
      if negb (String.eqb calculated_hash check_hash) then inl "Invalid hash"%string
      else inr (decode_fields parsed)
  end.

(** Verification succeeded. *)
Definition accepted (r : string + list (string * field)) : bool :=
  match r with inr _ => true | inl _ => false end.

End Verify.

End Session.

(* ------------------------------------------------------------------ *)
(** ** Path and text helpers: [os.path], [pathlib], [str] (ASCII text) *)

Definition slash : ascii := "/"%char.

Fixpoint has_char (c : ascii) (s : string) : bool :=
  match s with
  | EmptyString => false
  | String c' r => Ascii.eqb c c' || has_char c r
  end.

(** [posixpath.basename(p)] = [p[p.rfind('/') + 1:]]. *)
Fixpoint basename (p : string) : string :=
  match p with
  | EmptyString => EmptyString
  | String c r => if has_char slash r then basename r
                  else if Ascii.eqb c slash then r else p
  end.

Fixpoint ends_with_slash (s : string) : bool :=
  match s with
  | EmptyString => false
  | String c EmptyString => Ascii.eqb c slash
  | String _ r => ends_with_slash r
  end.

(** [posixpath.join(a, b)] for two arguments. *)
Definition path_join (a b : string) : string :=
  match b with
  | String c _ =>
      if Ascii.eqb c slash then b
      else if String.eqb a "" || ends_with_slash a then (a ++ b)%string
      else (a ++ "/" ++ b)%string
  | EmptyString => if String.eqb a "" || ends_with_slash a then a else (a ++ "/")%string
  end.

(** [s.split(c)]: always at least one piece. *)
Fixpoint split_on (c : ascii) (s : string) : list string :=
  match s with
  | EmptyString => [EmptyString]
  | String c' r =>
      if Ascii.eqb c c' then EmptyString :: split_on c r
      else match split_on c r with
           | p :: ps => String c' p :: ps
           | [] => [String c' EmptyString]
           end
  end.

(** [pieces[-1]] (the list from [split] is never empty). *)
Fixpoint last_piece (l : list string) : string :=
  match l with
  | [] => EmptyString
  | [x] => x
  | _ :: r => last_piece r
  end.

Fixpoint drop_while_char (c : ascii) (l : list ascii) : list ascii :=
  match l with
  | [] => []
  | x :: r => if Ascii.eqb x c then drop_while_char c r else l
  end.

(** [s.rstrip(c)] *)
Definition rstrip_char (c : ascii) (s : string) : string :=
  string_of_list_ascii (rev (drop_while_char c (rev (list_ascii_of_string s)))).

(** Leading whitespace characters dropped, on the chunks of code points. *)
Fixpoint drop_space (l : list (list ascii)) : list (list ascii) :=
  match l with
  | [] => []
  | x :: r => if py_isspace (chunk_cp x) then drop_space r else l
  end.

(** [s.strip()] *)
Definition py_strip (s : string) : string :=
  string_of_list_ascii
    (concat (rev (drop_space (rev (drop_space (utf8_chunks (list_ascii_of_string s))))))).

(** [extract_channel_username(link)] = [link.rstrip('/').split('/')[-1]]. *)
Definition extract_channel_username (link : string) : string :=
  last_piece (split_on slash (rstrip_char slash link)).

(** [pathlib.PurePosixPath(filename).name]: the last component, empty and
    ["."] components being dropped by pathlib. *)
Definition path_name (filename : string) : string :=
  last_piece (List.filter (fun p => negb (String.eqb p "" || String.eqb p "."))
                (split_on slash filename)).

(** [name.rfind('.')], -1 when absent. *)
Fixpoint rfind_dot_from (i : Z) (s : string) : Z :=
  match s with
  | EmptyString => -1
  | String c r =>
      let j := rfind_dot_from (i + 1) r in
      if j =? -1 then (if Ascii.eqb c "."%char then i else -1) else j
  end.

(** [PurePath.suffix]: [name[i:]] when [0 < i < len(name) - 1] for the last
    dot [i], the empty string otherwise. *)
Definition path_suffix (filename : string) : string :=
  let name := path_name filename in
  let i := rfind_dot_from 0 name in
  if (0 <? i) && (i <? Z.of_nat (String.length name) - 1)
  then String.substring (Z.to_nat i) (String.length name - Z.to_nat i) name
  else EmptyString.

(** [str(n)] of a Python int: decimal digits, a leading ["-"] when negative.
    The fuel [S (log2 n)] bounds the number of decimal digits of [n]. *)
Definition digit_char (d : Z) : ascii := Ascii.ascii_of_nat (Z.to_nat d + 48).

Fixpoint dec_digits (fuel : nat) (n : Z) : string :=
  match fuel with
  | O => EmptyString
  | S f => if n <? 10 then String (digit_char n) EmptyString
           else (dec_digits f (n / 10) ++ String (digit_char (n mod 10)) EmptyString)%string
  end.

Definition py_str (n : Z) : string :=
  if n <? 0 then ("-" ++ dec_digits (S (Z.to_nat (Z.log2 (- n)))) (- n))%string
  else dec_digits (S (Z.to_nat (Z.log2 n))) n.

(** The deep link printed by [bot_start] and the [refer] callback:
    [f"https://t.me/{BOT_USERNAME}?start={uid}"]; Telegram hands its
    [start] parameter [str(uid)] back as [context.args[0]]. *)
Definition referral_link (bot_username : string) (uid : Z) : string :=
  ("https://t.me/" ++ bot_username ++ "?start=" ++ py_str uid)%string.

(** Tasks in the order of [ORDER BY task_id DESC]: insertion sort of the
    table's rows on the (unique) key. *)
Fixpoint insert_desc (x : Z * task_row) (l : list (Z * task_row)) : list (Z * task_row) :=
  match l with
  | [] => [x]
  | y :: r => if fst y <? fst x then x :: l else y :: insert_desc x r
  end.

Definition sort_desc (l : list (Z * task_row)) : list (Z * task_row) :=
  fold_right insert_desc [] l.

Definition set_verifiers (d : db) (v : gset Z) : db :=
  mk_db (users d) (tasks d) (task_submissions d) v (referrals d).

Section Handlers2.

Variable fromisoformat : string -> option Z.
Variable isoformat : Z -> string.
Variable strftime_ts : Z -> string.   (* utcnow().strftime("%Y%m%d%H%M%S") *)
Variable is_member_of_channel : Z -> bool.
Variable ADMIN_IDS : list Z.
Variable UPLOAD_DIR : string.

Inductive balance_result := BalanceOk (coins_total ads_total : Z) (boost : bool).

(** [balance(user_id)] *)
Definition balance (now uid : Z) (d : db) : balance_result :=
  match users d !! uid with
  | None => BalanceOk 0 0 false
  | Some r =>
      let boost := match boost_until r with
                   | None => false
                   | Some bu =>
                       if String.eqb bu "" then false
                       else match fromisoformat (strip_Z bu) with
                            | Some until => Z.ltb now until
                            | None => false
                            end
                   end in
      BalanceOk (coins r) (ads_watched r) boost
  end.

(** [add_task]; [new_id] is the fresh [task_id] SQLite's AUTOINCREMENT
    assigns. *)
Definition add_task (uid : Z) (title description link : string) (reward_ new_id : Z)
    (d : db) : admin_result * db :=
  let title' := py_strip title in
  if String.eqb title' "" || (reward_ <=? 0)
  then (AdminHTTPError 400 "init_data, title and positive reward required", d)
  else if negb (existsb (Z.eqb uid) ADMIN_IDS) then (AdminHTTPError 403 "Not authorized", d)
  else (AdminOk, set_tasks d (<[new_id := mk_task title' (py_strip description)
                                            (py_strip link) reward_]> (tasks d))).

(** [add_verifier]: [INSERT OR IGNORE INTO verifiers]. *)
Definition add_verifier (uid vid : Z) (d : db) : admin_result * db :=
  if vid =? 0 then (AdminHTTPError 400 "init_data and verifier_id required", d)
  else if negb (existsb (Z.eqb uid) ADMIN_IDS) then (AdminHTTPError 403 "Not authorized", d)
  else (AdminOk, set_verifiers d ({[vid]} ∪ verifiers d)).

(** [remove_verifier]: [DELETE FROM verifiers WHERE verifier_id = ?]. *)
Definition remove_verifier (uid vid : Z) (d : db) : admin_result * db :=
  if vid =? 0 then (AdminHTTPError 400 "init_data and verifier_id required", d)
  else if negb (existsb (Z.eqb uid) ADMIN_IDS) then (AdminHTTPError 403 "Not authorized", d)
  else (AdminOk, set_verifiers d (verifiers d ∖ {[vid]})).

Inductive submit_result :=
| SubmitHTTPError (code : Z) (detail : string)
| SubmitOk (fpath : string).

(** [submit_proof]: the uploaded bytes go to the file [fpath], recorded in
    the set [files] of existing paths; [new_id] is the fresh
    [submission_id] of AUTOINCREMENT. *)
Definition submit_proof (now uid : Z) (uname : string) (task_id : Z) (filename : string)
    (new_id : Z) (d : db) (files : gset string) : submit_result * db * gset string :=
  if negb (is_member_of_channel uid) then (SubmitHTTPError 403 "join_channel", d, files)
  else
    let ts := strftime_ts now in
    let ext := match path_suffix filename with EmptyString => ".jpg"%string | e => e end in
    let fname := (py_str uid ++ "_" ++ ts ++ ext)%string in
    let fpath := path_join UPLOAD_DIR fname in
    let u := insert_or_ignore uid (mk_user uname 0 None None 0 0 None None) (users d) in
    let s := <[new_id := mk_submission uid task_id fpath "pending" (isoformat now) None None]>
               (task_submissions d) in
    (SubmitOk fpath, mk_db u (tasks d) s (verifiers d) (referrals d), {[fpath]} ∪ files).

(** The [file_path] URL listed by [get_submissions]. *)
Definition submission_file_url (fp : string) : string :=
  if String.eqb fp "" then EmptyString else ("/uploads/" ++ basename fp)%string.

(** [serve_upload(fname)]: the [FileResponse] of [safe], the 404, or the
    server error of a [FileResponse] on a directory.  [files] are the
    regular files the program has written into [UPLOAD_DIR]; it creates no
    directory there, and [UPLOAD_DIR] exists from [os.makedirs] at import.
    So [os.path.exists(safe)] holds for a file of [files] and for the base
    names [""], ["."] and [".."], where [safe] is [UPLOAD_DIR] itself or its
    parent directory ([FileResponse] then fails: "is not a file"). *)
Inductive upload_result := UploadFile (path : string) | UploadNotFound | UploadServerError.

Definition serve_upload (fname : string) (files : gset string) : upload_result :=
  let b := basename fname in
  let safe := path_join UPLOAD_DIR b in
  if String.eqb b "" || String.eqb b "." || String.eqb b ".." then UploadServerError
  else if bool_decide (safe ∈ files) then UploadFile safe else UploadNotFound.

(** One entry of the [get_submissions] answer: [submission_id], [user_id],
    [task_id], the file URL, [status], [submitted_at]. *)
Definition submission_entry (sid : Z) (r : submission_row)
    : Z * Z * Z * string * string * string :=
  (sid, sub_user_id r, sub_task_id r, submission_file_url (file_path r), status r,
   submitted_at r).

(** [ORDER BY submitted_at DESC]: insertion sort on the time stamp string;
    SQLite leaves the order of equal time stamps open, here they keep the
    table's order. *)
Fixpoint insert_sub_desc (x : Z * submission_row) (l : list (Z * submission_row))
    : list (Z * submission_row) :=
  match l with
  | [] => [x]
  | y :: r => if String.ltb (submitted_at (snd y)) (submitted_at (snd x)) then x :: l
              else y :: insert_sub_desc x r
  end.

(** [get_submissions]: [None] is the 403 for a caller neither in
    [ADMIN_IDS] nor in [verifiers]; the answer lists all rows of
    [task_submissions]. *)
Definition get_submissions (uid : Z) (d : db)
    : option (list (Z * Z * Z * string * string * string)) :=
  if negb (existsb (Z.eqb uid) ADMIN_IDS) && negb (bool_decide (uid ∈ verifiers d)) then None
  else Some (map (fun sr => submission_entry (fst sr) (snd sr))
               (fold_right insert_sub_desc [] (map_to_list (task_submissions d)))).

(** [get_tasks(page, per_page)]; [None] is FastAPI's 422 for a query
    outside [page >= 1], [1 <= per_page <= 50]. *)
Definition get_tasks (page per_page : Z) (d : db) : option (list (Z * task_row) * Z) :=
  if (page <? 1) || (per_page <? 1) || (50 <? per_page) then None
  else
    let total := Z.of_nat (size (tasks d)) in
    let offset := (page - 1) * per_page in
    Some (take (Z.to_nat per_page) (drop (Z.to_nat offset) (sort_desc (map_to_list (tasks d)))),
          total).

End Handlers2.

(* ------------------------------------------------------------------ *)
(** ** The store under every writing handler *)

Section Machine.

Variable fromisoformat : string -> option Z.
Variable isoformat : Z -> string.
Variable date_isoformat : Z -> string.
Variable strftime_ts : Z -> string.
Variable is_member_of_channel : Z -> bool.
Variable ADMIN_IDS : list Z.
Variable UPLOAD_DIR : string.

(** One committed handler run, with any arguments; a fresh AUTOINCREMENT
    id for the two INSERTs that take one. *)
Inductive step : db -> db -> Prop :=
| step_bot_start now uid uname args d :
    step d (bot_start isoformat now uid uname args d)
| step_ad_watched now uid uname d :
    step d (snd (ad_watched isoformat is_member_of_channel now uid uname d))
| step_daily_claim now uid uname d :
    step d (snd (daily_claim isoformat date_isoformat now uid uname d))
| step_review now uid sid action reason d :
    step d (snd (review_submission fromisoformat ADMIN_IDS now uid sid action reason d))
| step_delete_task uid tid d :
    step d (snd (delete_task ADMIN_IDS uid tid d))
| step_add_task uid ti de li r nid d :
    tasks d !! nid = None ->
    step d (snd (add_task ADMIN_IDS uid ti de li r nid d))
| step_submit_proof now uid uname tid fn nid files d :
    task_submissions d !! nid = None ->
    step d (snd (fst (submit_proof isoformat strftime_ts is_member_of_channel UPLOAD_DIR
                        now uid uname tid fn nid d files)))
| step_add_verifier uid vid d :
    step d (snd (add_verifier ADMIN_IDS uid vid d))
| step_remove_verifier uid vid d :
    step d (snd (remove_verifier ADMIN_IDS uid vid d)).

Definition empty_db : db := mk_db ∅ ∅ ∅ ∅ ∅.

(** The stores the program can reach from the freshly migrated database. *)
Inductive reachable : db -> Prop :=
| reach_empty : reachable empty_db
| reach_step d d' : reachable d -> step d d' -> reachable d'.

End Machine.

(* ------------------------------------------------------------------ *)
(** ** The program's channel check *)

(** [is_member_of_channel(user_id)] of the source, lines 124-137.  [tg_bot]
    is [Bot(token=BOT_TOKEN) if BOT_TOKEN else None].  The program is
    written for python-telegram-bot 20 ([Application.builder()] in
    [run_bot]), where [Bot.get_chat_member] is a coroutine function: called
    without [await] it returns a coroutine object, and reading [.status] on
    it raises AttributeError, which [except Exception] turns into [False].
    The handlers above take the check as their parameter
    [is_member_of_channel]; this is the one the program passes them. *)
Inductive get_chat_member_value := UnawaitedCoroutine.

Definition get_chat_member (chat_id : string) (user_id : Z) : get_chat_member_value :=
  UnawaitedCoroutine.

(** [member.status]: [None] is the AttributeError. *)
Definition member_status (m : get_chat_member_value) : option string :=
  match m with UnawaitedCoroutine => None end.

(** [channel.startswith('@')] *)
Definition starts_with_at (s : string) : bool :=
  match s with String c _ => Ascii.eqb c "@"%char | EmptyString => false end.

Definition is_member_of_channel (BOT_TOKEN CHANNEL_LINK : string) (user_id : Z) : bool :=
  if String.eqb BOT_TOKEN "" then false
  else
    let channel := extract_channel_username CHANNEL_LINK in
    if String.eqb channel "" then false
    else
      let chat_id := if starts_with_at channel then channel else ("@" ++ channel)%string in
      match member_status (get_chat_member chat_id user_id) with
      | Some st => existsb (String.eqb st) ["member"; "administrator"; "creator"]%string
      | None => false
      end.

(* ------------------------------------------------------------------ *)
(** ** Concurrent daily claims *)

(** Every handler opens an SQLite connection of its own ([get_db]).  The
    INSERT OR IGNORE that starts [daily_claim] opens a write transaction
    (the sqlite3 module issues BEGIN before it) and takes the database's
    write lock, also when it inserts nothing; the lock is held until the
    [commit()] or the [close()] that ends the handler.  So no other
    connection, of the HTTP server or of the bot's thread, writes between
    the SELECT of [last_daily] and the UPDATE, and the body has no [await]
    at which the event loop could switch.  Concurrent calls thus take
    effect one after the other, each as one [daily_claim], between
    committed runs of the other handlers.  A call that waits for the lock
    longer than the busy timeout (5 s) fails with "database is locked"
    before writing: [None] in the list of answers. *)
Section DailyRuns.

Variable fromisoformat : string -> option Z.
Variable isoformat : Z -> string.
Variable date_isoformat : Z -> string.
Variable strftime_ts : Z -> string.
Variable is_member_of_channel : Z -> bool.
Variable ADMIN_IDS : list Z.
Variable UPLOAD_DIR : string.
(** The user whose claims race, and the UTC day of the claims. *)
Variable uid : Z.
Variable day : string.

(** A committed run of any handler but a daily claim of [uid]. *)
Inductive other_step : db -> db -> Prop :=
| other_bot_start now u uname args d :
    other_step d (bot_start isoformat now u uname args d)
| other_ad_watched now u uname d :
    other_step d (snd (ad_watched isoformat is_member_of_channel now u uname d))
| other_daily_claim now u uname d :
    u ≠ uid ->
    other_step d (snd (daily_claim isoformat date_isoformat now u uname d))
| other_review now u sid action reason d :
    other_step d (snd (review_submission fromisoformat ADMIN_IDS now u sid action reason d))
| other_delete_task u tid d :
    other_step d (snd (delete_task ADMIN_IDS u tid d))
| other_add_task u ti de li r nid d :
    tasks d !! nid = None ->
    other_step d (snd (add_task ADMIN_IDS u ti de li r nid d))
| other_submit_proof now u uname tid fn nid files d :
    task_submissions d !! nid = None ->
    other_step d (snd (fst (submit_proof isoformat strftime_ts is_member_of_channel UPLOAD_DIR
                              now u uname tid fn nid d files)))
| other_add_verifier u vid d :
    other_step d (snd (add_verifier ADMIN_IDS u vid d))
| other_remove_verifier u vid d :
    other_step d (snd (remove_verifier ADMIN_IDS u vid d)).

(** [day_run d outs d']: from [d], the daily claims of [uid] on [day]
    answer [outs] in the order they take effect, other handlers running in
    between, and the store ends as [d']. *)
Inductive day_run : db -> list (option daily_result) -> db -> Prop :=
| run_done d : day_run d [] d
| run_claim now uname d outs d' :
    date_isoformat now = day ->
    day_run (snd (daily_claim isoformat date_isoformat now uid uname d)) outs d' ->
    day_run d (Some (fst (daily_claim isoformat date_isoformat now uid uname d)) :: outs) d'
| run_locked d outs d' :
    day_run d outs d' -> day_run d (None :: outs) d'
| run_other d d1 outs d' :
    other_step d d1 -> day_run d1 outs d' -> day_run d outs d'.

End DailyRuns.

(** The [last_daily] the SELECT of [daily_claim] reads for [uid]. *)
Definition last_daily_of (uid : Z) (d : db) : option string :=
  match users d !! uid with Some u => last_daily u | None => None end.

(** The number of credited claims among the answers. *)
Definition count_ok (outs : list (option daily_result)) : nat :=
  length (List.filter (fun o => match o with Some (DailyOk _) => true | _ => false end) outs).

(** Facts every reachable store satisfies. *)
Definition row_ok (r : user_row) : Prop :=
  0 <= coins r /\ 0 <= ads_watched r /\ 0 <= ad_counter r <= 2.

Definition submission_ok (d : db) (r : submission_row) : Prop :=
  is_Some (users d !! sub_user_id r) /\
  ((status r = "pending"%string /\ reviewed_by r = None) \/
   ((status r = "approved"%string \/ status r = "rejected"%string) /\ is_Some (reviewed_by r))).

Definition store_inv (d : db) : Prop :=
  (forall t r, tasks d !! t = Some r -> 0 < reward r) /\
  (forall u r, users d !! u = Some r -> row_ok r) /\
  (forall s r, task_submissions d !! s = Some r -> submission_ok d r) /\
  (forall a b, (a, b) ∈ referrals d -> a ≠ 0 /\ a ≠ b /\ is_Some (users d !! b)).

(** No row of [users] disappears and no balance goes down. *)
Definition coins_grow (m m' : gmap Z user_row) : Prop :=
  forall uid r, m !! uid = Some r -> exists r', m' !! uid = Some r' /\ coins r <= coins r'.

Definition users_grow (d d' : db) : Prop := coins_grow (users d) (users d').

(* ------------------------------------------------------------------ *)
(** ** A concrete environment for running the handlers *)

Module TestEnv.

Fixpoint digits_of (fuel : nat) (n : Z) (acc : string) : string :=
  match fuel with
  | O => acc
  | S f =>
      let c := Ascii.ascii_of_nat (Z.to_nat (n mod 10) + 48) in
      if n <? 10 then String c acc else digits_of f (n / 10) (String c acc)
  end.

(** Time stamps printed and read back as decimal microsecond counts. *)
Definition isoformat (t : Z) : string := digits_of 64 t EmptyString.
Definition fromisoformat (s : string) : option Z :=
  if isdigit s then Some (int_of_digits s) else None.
(** Calendar day: the day number of the time stamp. *)
Definition date_isoformat (t : Z) : string := isoformat (t / (86400 * 1000000)).
Definition member (_ : Z) : bool := true.
Definition admins : list Z := [1].

Definition alice : user_row := mk_user "alice" 10 None None 0 0 None None.
Definition task50 : task_row := mk_task "follow" "follow us" "https://x" 50.
Definition sub5 : submission_row := mk_submission 7 1 "/data/uploads/7_1.jpg" "pending" "t0" None None.

Definition db0 : db :=
  mk_db (<[7:=alice]> ∅) (<[1:=task50]> ∅) (<[5:=sub5]> ∅) ∅ ∅.

(** Toy stand-ins for SHA-256 and HMAC-SHA-256, injective in their input. *)
Definition toy_sha (s : string) : string := s.
Definition toy_hmac (k m : string) : string := (k ++ "|" ++ m)%string.
Definition no_json (_ : string) : option unit := None.

End TestEnv.

(* ------------------------------------------------------------------ *)
(** ** Runs on concrete inputs *)

Module Runs.
Import TestEnv.

Example approve_plain :
  fst (review_submission fromisoformat admins 1000 1 5 "approve" "" db0) = ReviewApproved 50.
Proof. vm_compute. reflexivity. Qed.

Example approve_twice :
  let d1 := snd (review_submission fromisoformat admins 1000 1 5 "approve" "" db0) in
  fst (review_submission fromisoformat admins 1001 1 5 "approve" "" d1) = ReviewAlready.
Proof. vm_compute. reflexivity. Qed.

Example ads_three :
  let '(r1, d1) := ad_watched isoformat member 0 9 "bob" db0 in
  let '(r2, d2) := ad_watched isoformat member 1 9 "bob" d1 in
  let '(r3, d3) := ad_watched isoformat member 2 9 "bob" d2 in
  (r1, r2, r3) = (AdOk 100 100 1 2 None, AdOk 100 200 2 1 None,
                  AdOk 100 300 3 3 (Some (isoformat (2 + TWO_HOURS) ++ "Z")%string)).
Proof. vm_compute. reflexivity. Qed.

Example approve_boosted :
  let '(_, d1) := ad_watched isoformat member 0 7 "alice" db0 in
  let '(_, d2) := ad_watched isoformat member 1 7 "alice" d1 in
  let '(_, d3) := ad_watched isoformat member 2 7 "alice" d2 in
  fst (review_submission fromisoformat admins 3 1 5 "approve" "" d3) = ReviewApproved 100.
Proof. vm_compute. reflexivity. Qed.

Example daily_twice :
  let '(r1, d1) := daily_claim isoformat date_isoformat 5 7 "alice" db0 in
  let '(r2, d2) := daily_claim isoformat date_isoformat 6 7 "alice" d1 in
  (r1, r2) = (DailyOk 50, DailyAlready).
Proof. vm_compute. reflexivity. Qed.

(** ["٧"] (ARABIC-INDIC DIGIT SEVEN, bytes D9 A7) is read as 7. *)
Example start_arabic_indic_seven :
  start_referrer [String (ascii_of_nat 217) (String (ascii_of_nat 167) EmptyString)] = Some 7.
Proof. vm_compute. reflexivity. Qed.

(** ["²"] (bytes C2 B2) passes [isdigit] and [int] raises on it: the
    handler stops and the store is unchanged. *)
Example start_superscript_two :
  let arg := String (ascii_of_nat 194) (String (ascii_of_nat 178) EmptyString) in
  py_isdigit arg = true /\ parse_start_arg [arg] = StartValueError /\
  bot_start isoformat 0 9 "bob" [arg] db0 = db0.
Proof. vm_compute. repeat split. Qed.

(** 4301 digits pass [isdigit]; [int] refuses them. *)
Example start_too_many_digits :
  parse_start_arg [string_of_list_ascii (repeat "1"%char 4301)] = StartValueError.
Proof. vm_compute. reflexivity. Qed.

(** [strip()] removes a no-break space (bytes C2 A0). *)
Example strip_nbsp :
  py_strip (String (ascii_of_nat 194) (String (ascii_of_nat 160) "Follow ")) = "Follow"%string.
Proof. vm_compute. reflexivity. Qed.

(** The upload directory and its parent exist but are not files. *)
Example serve_upload_dirs :
  serve_upload "/data/uploads" "." ∅ = UploadServerError /\
  serve_upload "/data/uploads" ".." ∅ = UploadServerError /\
  serve_upload "/data/uploads" "x.png" ∅ = UploadNotFound.
Proof. vm_compute. repeat split. Qed.

End Runs.

(* ------------------------------------------------------------------ *)
(** ** Store lemmas *)

Lemma insert_or_ignore_ne {V} (k k' : Z) (v : V) (m : gmap Z V) :
  k ≠ k' → insert_or_ignore k v m !! k' = m !! k'.
Proof.
  intros Hne. unfold insert_or_ignore.
  destruct (m !! k); [done | by rewrite lookup_insert_ne].
Qed.

Lemma insert_or_ignore_present {V} (k : Z) (v v0 : V) (m : gmap Z V) :
  m !! k = Some v0 → insert_or_ignore k v m = m.
Proof. intros H. unfold insert_or_ignore. by rewrite H. Qed.

Lemma insert_or_ignore_eq {V} (k : Z) (v : V) (m : gmap Z V) :
  insert_or_ignore k v m !! k = Some (match m !! k with Some v0 => v0 | None => v end).
Proof.
  unfold insert_or_ignore. destruct (m !! k) eqn:E; [done | by rewrite lookup_insert_eq].
Qed.

Lemma add_coins_add (a b : Z) (u : user_row) :
  add_coins b (add_coins a u) = add_coins (a + b) u.
Proof. destruct u; unfold add_coins; simpl; f_equal; lia. Qed.

(** [credit] touches the one row it names, and nothing else of the store. *)
Lemma credit_lookup (uid amount : Z) (d : db) (k : Z) :
  users (credit uid amount d) !! k =
  if bool_decide (k = uid) then add_coins amount <$> users d !! uid else users d !! k.
Proof.
  unfold credit, set_users; simpl. case_bool_decide as Hk.
  - subst. apply lookup_alter_eq.
  - apply lookup_alter_ne. congruence.
Qed.

Lemma credit_other_tables (uid amount : Z) (d : db) :
  tasks (credit uid amount d) = tasks d /\
  task_submissions (credit uid amount d) = task_submissions d /\
  verifiers (credit uid amount d) = verifiers d /\
  referrals (credit uid amount d) = referrals d.
Proof. done. Qed.

Lemma start_referrer_parse (args : list string) (r : Z) :
  start_referrer args = Some r -> parse_start_arg args = Referrer r.
Proof. unfold start_referrer. by destruct (parse_start_arg args); intros [=]; subst. Qed.

(** ** C1: a repeated [/start A] of user B *)

(** The store after one [/start] of user [b] whose argument names an
    existing referrer [a]: the edge is in the set and [a] got the bonus. *)
Lemma bot_start_referral (iso : Z -> string) (now a b : Z) (uname : string)
    (args : list string) (d : db) :
  start_referrer args = Some a → a ≠ 0 → a ≠ b →
  referrals (bot_start iso now b uname args d) = {[(a, b)]} ∪ referrals d /\
  users (bot_start iso now b uname args d) !! a = add_coins REFERRAL_BONUS <$> users d !! a /\
  is_Some (users (bot_start iso now b uname args d) !! b).
Proof.
  intros Hr Ha Hab. unfold bot_start. rewrite (start_referrer_parse _ _ Hr).
  assert (E : negb (a =? 0) && negb (a =? b) = true).
  { apply andb_true_intro; split; apply negb_true_iff, Z.eqb_neq; done. }
  rewrite E. split; [done|]. split.
  - rewrite credit_lookup, bool_decide_eq_true_2 by done.
    unfold set_referrals, set_users; simpl. by rewrite insert_or_ignore_ne.
  - rewrite credit_lookup, bool_decide_eq_false_2 by congruence.
    unfold set_referrals, set_users; simpl. rewrite insert_or_ignore_eq. by eexists.
Qed.

(** C1 (code_bug): two [/start A] runs of user [B] (A, B distinct, A an
    existing user) keep a single edge (A, B) in the referral set but credit
    A twice: A's balance grows by 2 * 200 = 400, not 200. *)
Theorem referral_repeat_credits_twice (iso : Z -> string) (t1 t2 a b : Z)
    (uname : string) (args : list string) (d : db) (u : user_row) :
  start_referrer args = Some a → a ≠ 0 → a ≠ b → users d !! a = Some u →
  let d2 := bot_start iso t2 b uname args (bot_start iso t1 b uname args d) in
  referrals d2 = {[(a, b)]} ∪ referrals d /\
  coins <$> users d2 !! a = Some (coins u + 2 * REFERRAL_BONUS).
Proof.
  intros Hr Ha Hab Hu d2. subst d2.
  destruct (bot_start_referral iso t1 a b uname args d Hr Ha Hab) as [R1 [U1 _]].
  destruct (bot_start_referral iso t2 a b uname args (bot_start iso t1 b uname args d) Hr Ha Hab)
    as [R2 [U2 _]].
  split.
  - rewrite R2, R1. set_solver.
  - rewrite U2, U1, Hu. simpl. unfold add_coins. simpl. f_equal. unfold REFERRAL_BONUS. lia.
Qed.

(** ** C2: the ledger credit *)



(** ** Reviews of submissions *)

Lemma review_guard_pass (sid : Z) (action : string) :
  sid ≠ 0 → action = "approve"%string \/ action = "reject"%string →
  (sid =? 0) || negb (String.eqb action "approve" || String.eqb action "reject") = false.
Proof.
  intros Hs Ha. apply orb_false_intro; [by apply Z.eqb_neq|].
  destruct Ha as [-> | ->]; reflexivity.
Qed.

(** An authorized approval of a pending submission: the base reward is the
    task's [reward] read now (0 without a task row), doubled under an active
    boost of the target user; the target is credited and the row marked. *)
Lemma review_approve_pending (fi : string -> option Z) (admins : list Z)
    (now uid sid : Z) (reason : string) (d : db) (s : submission_row) :
  sid ≠ 0 → is_authorized admins uid d = true →
  task_submissions d !! sid = Some s → status s = "pending"%string →
  let base := match tasks d !! sub_task_id s with Some r => reward r | None => 0 end in
  let if_b := match users d !! sub_user_id s with
              | Some brow => boost_active fi now (boost_until brow) | None => false end in
  let award := if if_b then base * 2 else base in
  review_submission fi admins now uid sid "approve" reason d =
  (ReviewApproved award,
   set_submissions (credit (sub_user_id s) award d)
     (alter (set_review "approved" uid reason) sid (task_submissions d))).
Proof.
  intros Hs Hauth Hsub Hst base if_b award.
  unfold review_submission.
  rewrite review_guard_pass by (auto; tauto). rewrite Hauth. simpl negb. cbv iota.
  rewrite Hsub, Hst. reflexivity.
Qed.

Lemma boost_active_spec (fi : string -> option Z) (now : Z) (bu : option string) :
  boost_active fi now bu = true <->
  exists s until, bu = Some s /\ s ≠ ""%string /\ fi (strip_Z s) = Some until /\ now < until.
Proof.
  unfold boost_active. split.
  - destruct bu as [s|]; [|discriminate].
    destruct (String.eqb s "") eqn:E; [discriminate|].
    destruct (fi (strip_Z s)) as [t|] eqn:F; [|discriminate].
    intros H. exists s, t. apply String.eqb_neq in E. apply Z.ltb_lt in H. done.
  - intros (s & t & -> & Hne & Hf & Hlt).
    apply String.eqb_neq in Hne. rewrite Hne, Hf. by apply Z.ltb_lt.
Qed.

(** C4: a review of a submission that is no longer [pending], by an admin
    or verifier with a valid action, answers "already reviewed" and returns
    the store unchanged: no credit, no write to the submission. *)
Theorem review_not_pending_soft (fi : string -> option Z) (admins : list Z)
    (now uid sid : Z) (action reason : string) (d : db) (s : submission_row) :
  action = "approve"%string \/ action = "reject"%string → sid ≠ 0 →
  is_authorized admins uid d = true →
  task_submissions d !! sid = Some s → status s ≠ "pending"%string →
  review_submission fi admins now uid sid action reason d = (ReviewAlready, d).
Proof.
  intros Ha Hs Hauth Hsub Hst. unfold review_submission.
  rewrite review_guard_pass by done. rewrite Hauth. simpl negb. cbv iota.
  rewrite Hsub. apply String.eqb_neq in Hst. rewrite Hst. reflexivity.
Qed.

(** C5: an authorized approval of a pending submission whose task row
    exists awards the task's reward doubled when the target user's boost is
    active (a non-empty [boost_until] that parses to a time strictly after
    now) and the plain reward otherwise; for a positive reward the award is
    the double exactly when the boost is active. *)
Theorem approve_award_boost (fi : string -> option Z) (admins : list Z)
    (now uid sid : Z) (reason : string) (d : db) (s : submission_row) (t : task_row) :
  sid ≠ 0 → is_authorized admins uid d = true →
  task_submissions d !! sid = Some s → status s = "pending"%string →
  tasks d !! sub_task_id s = Some t →
  let active := match users d !! sub_user_id s with
                | Some brow => boost_active fi now (boost_until brow) | None => false end in
  fst (review_submission fi admins now uid sid "approve" reason d) =
    ReviewApproved (if active then reward t * 2 else reward t) /\
  (active = true <-> exists brow bs until, users d !! sub_user_id s = Some brow /\
     boost_until brow = Some bs /\ bs ≠ ""%string /\ fi (strip_Z bs) = Some until /\ now < until) /\
  (0 < reward t -> (fst (review_submission fi admins now uid sid "approve" reason d) =
     ReviewApproved (2 * reward t) <-> active = true)).
Proof.
  intros Hs Hauth Hsub Hst Ht active.
  assert (E : fst (review_submission fi admins now uid sid "approve" reason d) =
              ReviewApproved (if active then reward t * 2 else reward t)).
  { rewrite (review_approve_pending fi admins now uid sid reason d s Hs Hauth Hsub Hst).
    simpl. rewrite Ht. reflexivity. }
  split; [exact E|]. split.
  - subst active. destruct (users d !! sub_user_id s) as [brow|] eqn:U.
    + rewrite boost_active_spec. split.
      * intros (bs & u & ? & ? & ? & ?). exists brow, bs, u. done.
      * intros (b' & bs & u & Hb & ? & ? & ? & ?). injection Hb as <-. exists bs, u. done.
    + split; [discriminate|]. intros (b' & _ & _ & Hb & _). discriminate.
  - intros Hpos. rewrite E. destruct active; split; intros H; try done.
    + f_equal. lia.
    + injection H. lia.
Qed.

(** C3 (corrected): the approval reads the task's reward at approval time;
    once an admin has deleted the task, approving a pending submission for
    it marks the submission approved and awards 0. *)
Theorem approve_after_task_delete (fi : string -> option Z) (admins : list Z)
    (now adm uid sid : Z) (reason : string) (d : db) (s : submission_row) :
  existsb (Z.eqb adm) admins = true → sub_task_id s ≠ 0 →
  sid ≠ 0 → is_authorized admins uid d = true →
  task_submissions d !! sid = Some s → status s = "pending"%string →
  let d1 := snd (delete_task admins adm (sub_task_id s) d) in
  let if_b := match users d !! sub_user_id s with
              | Some brow => boost_active fi now (boost_until brow) | None => false end in
  fst (review_submission fi admins now uid sid "approve" reason d) =
    ReviewApproved (let base := match tasks d !! sub_task_id s with
                                | Some r => reward r | None => 0 end in
                    if if_b then base * 2 else base) /\
  review_submission fi admins now uid sid "approve" reason d1 =
    (ReviewApproved 0,
     set_submissions (credit (sub_user_id s) 0 d1)
       (alter (set_review "approved" uid reason) sid (task_submissions d1))).
Proof.
  intros Hadm Ht Hs Hauth Hsub Hst d1 if_b. split.
  - rewrite (review_approve_pending fi admins now uid sid reason d s Hs Hauth Hsub Hst).
    reflexivity.
  - assert (D : d1 = set_tasks d (delete (sub_task_id s) (tasks d))).
    { subst d1. unfold delete_task. apply Z.eqb_neq in Ht. rewrite Ht, Hadm. reflexivity. }
    assert (Hauth1 : is_authorized admins uid d1 = true) by (rewrite D; exact Hauth).
    assert (Hsub1 : task_submissions d1 !! sid = Some s) by (rewrite D; exact Hsub).
    rewrite (review_approve_pending fi admins now uid sid reason d1 s Hs Hauth1 Hsub1 Hst).
    assert (T : tasks d1 !! sub_task_id s = None) by (rewrite D; apply lookup_delete_eq).
    cbv zeta. rewrite T. destruct (match users d1 !! sub_user_id s with
              | Some brow => boost_active fi now (boost_until brow) | None => false end);
      reflexivity.
Qed.

(** ** Ad watches *)

Definition fresh_ad_row (uname : string) : user_row := mk_user uname 0 None None 0 0 None None.

(** One [ad_watched] of a channel member: the row (the existing one, or the
    fresh one the INSERT OR IGNORE creates) gets +100 coins and +1 ads; the
    streak reaching 3 sets [boost_until = now + 2h] and resets the streak. *)
Lemma ad_watched_row (iso : Z -> string) (mem : Z -> bool) (now uid : Z)
    (uname : string) (d : db) :
  mem uid = true →
  let u := match users d !! uid with Some u => u | None => fresh_ad_row uname end in
  let cnt := ad_counter u + 1 in
  let until := (iso (now + TWO_HOURS) ++ "Z")%string in
  let row' := if 3 <=? cnt then set_boost until (add_ad AD_REWARD u)
              else set_ad_counter cnt (add_ad AD_REWARD u) in
  fst (ad_watched iso mem now uid uname d) =
    AdOk AD_REWARD (coins row') (ads_watched row') (if 3 <=? cnt then 3 else 3 - cnt)
         (if 3 <=? cnt then Some until else None) /\
  users (snd (ad_watched iso mem now uid uname d)) !! uid = Some row'.
Proof.
  intros Hm u cnt until row'. unfold ad_watched. rewrite Hm. simpl negb. cbv iota.
  assert (L : alter (add_ad AD_REWARD) uid
                (insert_or_ignore uid (mk_user uname 0 None None 0 0 None None) (users d)) !! uid
              = Some (add_ad AD_REWARD u)).
  { rewrite lookup_alter_eq, insert_or_ignore_eq. subst u.
    destruct (users d !! uid); reflexivity. }
  rewrite L. subst row' cnt. simpl ad_counter.
  destruct (3 <=? ad_counter u + 1); rewrite lookup_alter_eq, L; cbn [fmap option_fmap option_map];
    (split; [reflexivity | unfold set_users; cbn [users snd]; rewrite lookup_alter_eq, L; reflexivity]).
Qed.

(** With a channel check that accepts the user, three ad watches of a
    fresh user award 100 coins each (balances 100, 200, 300), report no
    boost on the first two and a boost until [now + 2h] (as written by
    [isoformat() + "Z"]) on the third, and leave the streak counter at 0. *)
Lemma three_ads_fresh_user (iso : Z -> string) (mem : Z -> bool) (t1 t2 t3 uid : Z)
    (uname : string) (d : db) :
  mem uid = true → users d !! uid = None →
  let d1 := snd (ad_watched iso mem t1 uid uname d) in
  let d2 := snd (ad_watched iso mem t2 uid uname d1) in
  let d3 := snd (ad_watched iso mem t3 uid uname d2) in
  fst (ad_watched iso mem t1 uid uname d) = AdOk AD_REWARD 100 1 2 None /\
  fst (ad_watched iso mem t2 uid uname d1) = AdOk AD_REWARD 200 2 1 None /\
  fst (ad_watched iso mem t3 uid uname d2) =
    AdOk AD_REWARD 300 3 3 (Some (iso (t3 + TWO_HOURS) ++ "Z")%string) /\
  coins <$> users d3 !! uid = Some (coins (fresh_ad_row uname) + 3 * AD_REWARD) /\
  ad_counter <$> users d3 !! uid = Some 0 /\
  boost_until <$> users d3 !! uid = Some (Some (iso (t3 + TWO_HOURS) ++ "Z")%string).
Proof.
  intros Hm Hn d1 d2 d3.
  destruct (ad_watched_row iso mem t1 uid uname d Hm) as [R1 U1].
  rewrite Hn in R1, U1. simpl in R1, U1. fold d1 in U1.
  destruct (ad_watched_row iso mem t2 uid uname d1 Hm) as [R2 U2].
  rewrite U1 in R2, U2. simpl in R2, U2. fold d2 in U2.
  destruct (ad_watched_row iso mem t3 uid uname d2 Hm) as [R3 U3].
  rewrite U2 in R3, U3. simpl in R3, U3. fold d3 in U3.
  rewrite U3. repeat split; assumption || reflexivity.
Qed.

(** The program's channel check answers [false]: [get_chat_member] is
    not awaited. *)
Lemma is_member_of_channel_false (tok link : string) (u : Z) :
  is_member_of_channel tok link u = false.
Proof.
  unfold is_member_of_channel. destruct (String.eqb tok ""); [done|]. cbv zeta.
  destruct (String.eqb _ ""); done.
Qed.

(** C6 (code_bug): with the program's own channel check, whatever the bot
    token and the channel link, three ad watches of a user (a fresh one
    included) each answer "join_channel": no coins are awarded, no boost is
    reported, no row is created and the store is unchanged. *)
Theorem three_ads_never_award (iso : Z -> string) (tok link : string) (t1 t2 t3 uid : Z)
    (uname : string) (d : db) :
  let mem := is_member_of_channel tok link in
  let d1 := snd (ad_watched iso mem t1 uid uname d) in
  let d2 := snd (ad_watched iso mem t2 uid uname d1) in
  fst (ad_watched iso mem t1 uid uname d) = AdJoinChannel /\
  fst (ad_watched iso mem t2 uid uname d1) = AdJoinChannel /\
  fst (ad_watched iso mem t3 uid uname d2) = AdJoinChannel /\
  snd (ad_watched iso mem t3 uid uname d2) = d.
Proof.
  intros mem d1 d2.
  assert (E : forall t e, ad_watched iso mem t uid uname e = (AdJoinChannel, e)).
  { intros t e. unfold ad_watched. subst mem. by rewrite is_member_of_channel_false. }
  subst d1 d2. rewrite !E. done.
Qed.

(** ** Daily claims *)

Ltac daily_ok U :=
  split; [split; [discriminate | done]|]; split; [discriminate|];
  intros _; unfold set_users; cbn [users tasks task_submissions verifiers referrals];
  rewrite lookup_alter_eq, insert_or_ignore_eq, U;
  split; [done|]; split; [done|]; split; [done|]; split; [|done];
  intros k Hk; rewrite lookup_alter_ne by done; by rewrite insert_or_ignore_ne.

(** C7: [daily_claim] answers "already claimed" exactly when the stored
    [last_daily] is today's date, and then leaves the store as it was;
    otherwise it awards 50, adds 50 to the balance (of the row a first claim
    creates with 0 coins) and stores today's date; no other row changes. *)
Theorem daily_claim_spec (iso date : Z -> string) (now uid : Z) (uname : string) (d : db) :
  let r := fst (daily_claim iso date now uid uname d) in
  let d' := snd (daily_claim iso date now uid uname d) in
  let last := match users d !! uid with Some u => last_daily u | None => None end in
  let before := match users d !! uid with Some u => coins u | None => 0 end in
  (r = DailyAlready <-> last = Some (date now)) /\
  (r = DailyAlready -> d' = d) /\
  (r ≠ DailyAlready ->
     r = DailyOk DAILY_REWARD /\
     coins <$> users d' !! uid = Some (before + DAILY_REWARD) /\
     last_daily <$> users d' !! uid = Some (Some (date now)) /\
     (forall k, k ≠ uid -> users d' !! k = users d !! k) /\
     tasks d' = tasks d /\ task_submissions d' = task_submissions d /\
     verifiers d' = verifiers d /\ referrals d' = referrals d).
Proof.
  intros r d' last before. subst r d'. unfold daily_claim.
  rewrite insert_or_ignore_eq. subst last before.
  destruct (users d !! uid) as [u|] eqn:U; simpl; [case_bool_decide as H; simpl|].
  - repeat split; try done; intros C; done.
  - daily_ok U.
  - daily_ok U.
Qed.

(** ** Session verification *)

Module SessionFacts.
Import Session.

Lemma dict_get_set_eq (k v : string) (d : list (string * string)) :
  dict_get k (dict_set k v d) = Some v.
Proof.
  induction d as [|[k' v'] r IH]; simpl.
  - by rewrite String.eqb_refl.
  - destruct (String.eqb k k') eqn:E; simpl; rewrite E; done.
Qed.

Lemma dict_remove_absent (k : string) (d : list (string * string)) :
  dict_get k d = None → dict_remove k d = d.
Proof.
  induction d as [|[k' v'] r IH]; simpl; [done|].
  destruct (String.eqb k k'); [discriminate|]. intros H. by rewrite IH.
Qed.

Lemma dict_remove_set_absent (k v : string) (d : list (string * string)) :
  dict_get k d = None → dict_remove k (dict_set k v d) = d.
Proof.
  induction d as [|[k' v'] r IH]; simpl.
  - by rewrite String.eqb_refl.
  - destruct (String.eqb k k') eqn:E; [discriminate|].
    intros H. simpl. rewrite E. by rewrite IH.
Qed.

Lemma dict_of_pairs_snoc (l : list (string * string)) (k v : string) :
  dict_of_pairs (l ++ [(k, v)]) = dict_set k v (dict_of_pairs l).
Proof. unfold dict_of_pairs. by rewrite fold_left_app. Qed.

(** C8 (corrected): [verify_init_data] fails with "Missing hash" without a
    [hash] field; with one, it succeeds (returning the fields but [hash],
    with [user] JSON-decoded or left raw when decoding fails) exactly when
    [hash] equals the HMAC of the canonical data-check string and fails
    with "Invalid hash" otherwise.  So every correctly signed field set is
    accepted, and two payloads with the same [hash] and the same canonical
    string are accepted or refused together. *)
Theorem verify_init_data_canonical (sha : string -> string) (hmac : string -> string -> string)
    (J : Type) (json : string -> option J) (pairs : list (string * string)) (token : string) :
  (dict_get "hash" (dict_of_pairs pairs) = None ->
     verify_init_data sha hmac J json pairs token = inl "Missing hash"%string) /\
  (forall h, dict_get "hash" (dict_of_pairs pairs) = Some h ->
     (h = signature sha hmac token (fields_of pairs) ->
        verify_init_data sha hmac J json pairs token = inr (decode_fields J json (fields_of pairs))) /\
     (h ≠ signature sha hmac token (fields_of pairs) ->
        verify_init_data sha hmac J json pairs token = inl "Invalid hash"%string)) /\
  (dict_get "hash" (dict_of_pairs pairs) = None ->
     verify_init_data sha hmac J json
       (pairs ++ [("hash", signature sha hmac token (dict_of_pairs pairs))]%string) token
     = inr (decode_fields J json (dict_of_pairs pairs))) /\
  (forall pairs', dict_get "hash" (dict_of_pairs pairs') = dict_get "hash" (dict_of_pairs pairs) ->
     data_check_string (fields_of pairs') = data_check_string (fields_of pairs) ->
     accepted J (verify_init_data sha hmac J json pairs' token) =
     accepted J (verify_init_data sha hmac J json pairs token)) /\
  (forall v, dict_get "user" (fields_of pairs) = Some v -> json v = None ->
     In ("user"%string, Raw J v) (decode_fields J json (fields_of pairs))).
Proof.
  split; [|split; [|split; [|split]]].
  - intros H. unfold verify_init_data. by rewrite H.
  - intros h H. unfold verify_init_data. rewrite H. fold (fields_of pairs). split.
    + intros ->. by rewrite String.eqb_refl.
    + intros Hne.
      destruct (String.eqb (signature sha hmac token (fields_of pairs)) h) eqn:E.
      * apply String.eqb_eq in E. congruence.
      * reflexivity.
  - intros H. unfold verify_init_data. rewrite dict_of_pairs_snoc, dict_get_set_eq.
    rewrite dict_remove_set_absent by done. by rewrite String.eqb_refl.
  - intros pairs' Hh Hc. unfold verify_init_data, signature. rewrite Hh.
    destruct (dict_get "hash" (dict_of_pairs pairs)); [|done].
    fold (fields_of pairs') (fields_of pairs). rewrite Hc.
    by destruct (String.eqb _ _).
  - intros v Hv Hj. generalize dependent (fields_of pairs). intros l.
    induction l as [|[k w] r IH]; cbn [dict_get decode_fields map In fst snd]; [discriminate|].
    destruct (String.eqb "user" k) eqn:E.
    + intros Hv. injection Hv as <-. left. apply String.eqb_eq in E. subst k.
      cbn [fst snd]. by rewrite Hj.
    + intros Hv. right. by apply IH.
Qed.

End SessionFacts.

(* ------------------------------------------------------------------ *)
(** ** Concrete instances and counterexamples *)

Module Instances.
Import TestEnv.

(** C1 at user 9 running [/start 7] twice against [db0], where user 7 has
    10 coins: the edge (7, 9) is stored once and user 7 ends with 410. *)
Lemma referral_repeat_credits_twice_witness :
  start_referrer ["7"%string] = Some 7 /\ users db0 !! 7 = Some alice /\
  let d2 := bot_start isoformat 1 9 "bob" ["7"%string] (bot_start isoformat 0 9 "bob" ["7"%string] db0) in
  referrals d2 = {[(7, 9)]} ∪ referrals db0 /\
  coins <$> users d2 !! 7 = Some (coins alice + 2 * REFERRAL_BONUS).
Proof.
  split; [reflexivity|]. split; [reflexivity|].
  apply (referral_repeat_credits_twice isoformat 0 1 7 9 "bob" ["7"%string] db0 alice);
    [reflexivity | lia | lia | reflexivity].
Defined.


(** C3 fails: submission 5 of [db0] was made for task 1 worth 50; after the
    admin deletes task 1, approving the submission pays 0. *)
Lemma approve_after_delete_pays_zero :
  (reward <$> tasks db0 !! 1) = Some 50 /\
  fst (review_submission fromisoformat admins 1000 1 5 "approve" ""
         (snd (delete_task admins 1 1 db0))) = ReviewApproved 0.
Proof. vm_compute. split; reflexivity. Qed.

Lemma approve_after_task_delete_witness :
  let d1 := snd (delete_task admins 1 (sub_task_id sub5) db0) in
  review_submission fromisoformat admins 1000 1 5 "approve" "" d1 =
    (ReviewApproved 0,
     set_submissions (credit (sub_user_id sub5) 0 d1)
       (alter (set_review "approved" 1 "") 5 (task_submissions d1))).
Proof.
  apply (approve_after_task_delete fromisoformat admins 1000 1 1 5 "" db0 sub5);
    [reflexivity | simpl; lia | lia | reflexivity | reflexivity | reflexivity].
Defined.

Definition db_reviewed : db :=
  set_submissions db0 (<[5:=set_review "approved" 1 "" sub5]> ∅).

Lemma review_not_pending_soft_witness :
  review_submission fromisoformat admins 1001 1 5 "reject" "late" db_reviewed =
    (ReviewAlready, db_reviewed).
Proof.
  apply (review_not_pending_soft fromisoformat admins 1001 1 5 "reject" "late" db_reviewed
           (set_review "approved" 1 "" sub5));
    [right; reflexivity | lia | reflexivity | reflexivity | discriminate].
Defined.

(** Alice with a boost until time 5000: approving at 1000 awards 100. *)
Definition db_boosted : db :=
  set_users db0 (<[7:=set_boost "5000Z" alice]> ∅).

Lemma approve_award_boost_witness :
  fst (review_submission fromisoformat admins 1000 1 5 "approve" "" db_boosted) =
    ReviewApproved (if true then reward task50 * 2 else reward task50).
Proof.
  apply (approve_award_boost fromisoformat admins 1000 1 5 "" db_boosted sub5 task50);
    reflexivity || lia.
Defined.

Lemma three_ads_fresh_user_witness :
  let d1 := snd (ad_watched isoformat member 10 9 "bob" db0) in
  let d2 := snd (ad_watched isoformat member 20 9 "bob" d1) in
  fst (ad_watched isoformat member 30 9 "bob" d2) =
    AdOk AD_REWARD 300 3 3 (Some (isoformat (30 + TWO_HOURS) ++ "Z")%string).
Proof.
  apply (three_ads_fresh_user isoformat member 10 20 30 9 "bob" db0); reflexivity.
Defined.


(** C6 at a fresh user 9 of [db0], for a configured bot token and the
    default channel link: three ad watches, three "join_channel" answers,
    the store unchanged. *)
Lemma three_ads_never_award_witness :
  let mem := is_member_of_channel "123:token" "https://t.me/X_Reward_botChannel" in
  let d1 := snd (ad_watched isoformat mem 10 9 "bob" db0) in
  let d2 := snd (ad_watched isoformat mem 20 9 "bob" d1) in
  users db0 !! 9 = None /\
  fst (ad_watched isoformat mem 10 9 "bob" db0) = AdJoinChannel /\
  fst (ad_watched isoformat mem 20 9 "bob" d1) = AdJoinChannel /\
  fst (ad_watched isoformat mem 30 9 "bob" d2) = AdJoinChannel /\
  snd (ad_watched isoformat mem 30 9 "bob" d2) = db0.
Proof.
  split; [reflexivity|].
  apply (three_ads_never_award isoformat "123:token" "https://t.me/X_Reward_botChannel"
           10 20 30 9 "bob" db0).
Defined.

(** C8 fails: with any MAC, here an injective stand-in, the payload
    [a=1, b=2] and its tampering [a="1\nb=2"] (field [b] folded into [a])
    have the same data-check string, so the tampered payload is accepted
    with the original signature. *)
Lemma tampered_payload_accepted :
  let sig := Session.signature toy_sha toy_hmac "tok" [("a", "1"); ("b", "2")]%string in
  Session.verify_init_data toy_sha toy_hmac unit no_json
    [("a", "1"); ("b", "2"); ("hash", sig)]%string "tok" =
    inr [("a", Session.Raw unit "1"); ("b", Session.Raw unit "2")]%string /\
  Session.verify_init_data toy_sha toy_hmac unit no_json
    [("a", "1" ++ Session.newline ++ "b=2"); ("hash", sig)]%string "tok" =
    inr [("a", Session.Raw unit ("1" ++ Session.newline ++ "b=2"))]%string.
Proof. vm_compute. split; reflexivity. Qed.

End Instances.

(* ------------------------------------------------------------------ *)
(** ** Invariants of the store *)

Module StoreFacts.

Section MapFacts.
Context {V : Type}.

Lemma forall_alter (P : V -> Prop) (f : V -> V) (m : gmap Z V) (k : Z) :
  (forall j x, m !! j = Some x -> P x) -> (forall x, m !! k = Some x -> P (f x)) ->
  forall j x, alter f k m !! j = Some x -> P x.
Proof.
  intros H Hf j x. destruct (decide (k = j)) as [<-|Hne].
  - rewrite lookup_alter_eq. destruct (m !! k) eqn:E; simpl; [|discriminate].
    intros [= <-]. auto.
  - rewrite lookup_alter_ne by done. apply H.
Qed.

Lemma forall_insert (P : V -> Prop) (m : gmap Z V) (k : Z) (v : V) :
  (forall j x, m !! j = Some x -> P x) -> P v ->
  forall j x, <[k:=v]> m !! j = Some x -> P x.
Proof.
  intros H Hv j x. destruct (decide (k = j)) as [<-|Hne].
  - rewrite lookup_insert_eq. by intros [= <-].
  - rewrite lookup_insert_ne by done. apply H.
Qed.

Lemma forall_insert_or_ignore (P : V -> Prop) (m : gmap Z V) (k : Z) (v : V) :
  (forall j x, m !! j = Some x -> P x) -> P v ->
  forall j x, insert_or_ignore k v m !! j = Some x -> P x.
Proof.
  intros H Hv. unfold insert_or_ignore. destruct (m !! k); [done|]. by apply forall_insert.
Qed.

End MapFacts.

Lemma coins_grow_refl (m : gmap Z user_row) : coins_grow m m.
Proof. intros uid r H. exists r. split; [done | lia]. Qed.

Lemma coins_grow_trans (m1 m2 m3 : gmap Z user_row) :
  coins_grow m1 m2 -> coins_grow m2 m3 -> coins_grow m1 m3.
Proof.
  intros H12 H23 uid r H. destruct (H12 uid r H) as (r2 & H2 & L2).
  destruct (H23 uid r2 H2) as (r3 & H3 & L3). exists r3. split; [done | lia].
Qed.

Lemma coins_grow_alter (f : user_row -> user_row) (m : gmap Z user_row) (k : Z) :
  (forall x, m !! k = Some x -> coins x <= coins (f x)) -> coins_grow m (alter f k m).
Proof.
  intros Hf uid r H. destruct (decide (k = uid)) as [<-|Hne].
  - exists (f r). rewrite lookup_alter_eq, H. split; [done|]. by apply Hf.
  - exists r. rewrite lookup_alter_ne by done. split; [done | lia].
Qed.

Lemma coins_grow_insert_or_ignore (m : gmap Z user_row) (k : Z) (v : user_row) :
  coins_grow m (insert_or_ignore k v m).
Proof.
  intros uid r H. exists r. split; [|lia]. unfold insert_or_ignore.
  destruct (m !! k) eqn:E; [done|]. rewrite lookup_insert_ne; [done|]. congruence.
Qed.

Lemma coins_grow_is_Some (m m' : gmap Z user_row) (k : Z) :
  coins_grow m m' -> is_Some (m !! k) -> is_Some (m' !! k).
Proof. intros H [r Hr]. destruct (H k r Hr) as (r' & H' & _). by exists r'. Qed.

Lemma submissions_ok_grow (d d' : db) :
  users_grow d d' ->
  (forall s r, task_submissions d !! s = Some r -> submission_ok d r) ->
  forall s r, task_submissions d !! s = Some r -> submission_ok d' r.
Proof.
  intros G H s r Hr. destruct (H s r Hr) as [Hu Hst]. split; [|done].
  by apply (coins_grow_is_Some (users d)).
Qed.

Lemma credit_row_ok (amount : Z) (d : db) (uid : Z) :
  0 <= amount -> (forall u r, users d !! u = Some r -> row_ok r) ->
  forall u r, users (credit uid amount d) !! u = Some r -> row_ok r.
Proof.
  intros Ha H. unfold credit, set_users; simpl. apply forall_alter; [done|].
  intros x Hx. destruct (H uid x Hx) as (? & ? & ?). unfold row_ok, add_coins; simpl. lia.
Qed.

Lemma credit_grow (amount : Z) (d : db) (uid : Z) :
  0 <= amount -> users_grow d (credit uid amount d).
Proof.
  intros Ha. unfold users_grow, credit, set_users; simpl. apply coins_grow_alter.
  intros x _. unfold add_coins; simpl. lia.
Qed.

Lemma inv_of_users_change (d d' : db) :
  store_inv d -> users_grow d d' ->
  (forall u r, users d' !! u = Some r -> row_ok r) ->
  tasks d' = tasks d -> task_submissions d' = task_submissions d ->
  referrals d' = referrals d -> store_inv d'.
Proof.
  intros (Ht & Hu & Hs & Hr) G Hu' Et Es Er. split; [|split; [|split]].
  - rewrite Et. done.
  - done.
  - rewrite Es. by apply (submissions_ok_grow d d').
  - rewrite Er. intros a b Hab. destruct (Hr a b Hab) as (? & ? & Hb). split; [done|]. split; [done|].
    by apply (coins_grow_is_Some (users d)).
Qed.

Lemma inv_refl (d : db) : store_inv d -> store_inv d /\ users_grow d d.
Proof. intros I. split; [done | apply coins_grow_refl]. Qed.

Lemma bot_start_inv (iso : Z -> string) (now uid : Z) (uname : string) (args : list string)
    (d : db) :
  store_inv d -> store_inv (bot_start iso now uid uname args d) /\
                 users_grow d (bot_start iso now uid uname args d).
Proof.
  intros I.
  set (d1 := set_users d (insert_or_ignore uid
               (mk_user uname START_COINS None (Some (iso now)) 0 0 None None) (users d))).
  assert (G1 : users_grow d d1) by apply coins_grow_insert_or_ignore.
  assert (I1 : store_inv d1).
  { apply (inv_of_users_change d d1); try done.
    apply forall_insert_or_ignore; [apply I|]. unfold row_ok, START_COINS; simpl; lia. }
  unfold bot_start.
  destruct (parse_start_arg args) as [|r|]; [by fold d1| fold d1 | by apply inv_refl].
  destruct (negb (r =? 0) && negb (r =? uid)) eqn:E; [|done].
  apply andb_true_iff in E as [E1 E2]. apply negb_true_iff, Z.eqb_neq in E1, E2.
  set (d2 := set_referrals d1 ({[(r, uid)]} ∪ referrals d1)).
  assert (I2 : store_inv d2).
  { destruct I1 as (Ht & Hu & Hs & Hr). split; [done|]. split; [done|]. split; [done|].
    intros a b Hab. apply elem_of_union in Hab as [Hab|Hab].
    - apply elem_of_singleton in Hab. injection Hab as -> ->. split; [done|]. split; [done|].
      simpl. rewrite insert_or_ignore_eq. by eexists.
    - by apply Hr. }
  split.
  - apply (inv_of_users_change d2); try done.
    + by apply credit_grow.
    + apply credit_row_ok; [unfold REFERRAL_BONUS; lia | apply I2].
  - apply (coins_grow_trans _ (users d2)); [done|]. by apply credit_grow.
Qed.

Lemma ad_watched_inv (iso : Z -> string) (mem : Z -> bool) (now uid : Z) (uname : string)
    (d : db) :
  store_inv d -> store_inv (snd (ad_watched iso mem now uid uname d)) /\
                 users_grow d (snd (ad_watched iso mem now uid uname d)).
Proof.
  intros I. unfold ad_watched. destruct (mem uid); simpl; [|by apply inv_refl].
  set (u0 := insert_or_ignore uid (mk_user uname 0 None None 0 0 None None) (users d)).
  set (u1 := alter (add_ad AD_REWARD) uid u0).
  assert (O1 : forall j x, u1 !! j = Some x -> row_ok x).
  { apply forall_alter.
    - apply forall_insert_or_ignore; [apply I | unfold row_ok; simpl; lia].
    - intros x Hx. assert (row_ok x) as (? & ? & ?).
      { revert Hx. apply forall_insert_or_ignore; [apply I | unfold row_ok; simpl; lia]. }
      unfold row_ok, add_ad, AD_REWARD; simpl. lia. }
  assert (G1 : coins_grow (users d) u1).
  { apply (coins_grow_trans _ u0); [apply coins_grow_insert_or_ignore|].
    apply coins_grow_alter. intros x _. unfold add_ad, AD_REWARD; simpl. lia. }
  destruct (u1 !! uid) as [row|] eqn:R; [|by apply inv_refl].
  destruct (O1 uid row R) as (? & ? & ?).
  destruct (3 <=? ad_counter row + 1) eqn:C.
  - set (u2 := alter (set_boost (iso (now + TWO_HOURS) ++ "Z")) uid u1).
    assert (G2 : coins_grow (users d) u2).
    { apply (coins_grow_trans _ u1); [done|]. apply coins_grow_alter.
      intros x _. unfold set_boost; simpl. lia. }
    destruct (u2 !! uid); [|by apply inv_refl]. simpl. split; [|done].
    apply (inv_of_users_change d); try done. simpl. apply forall_alter; [done|].
    intros x Hx. destruct (O1 uid x Hx) as (? & ? & ?). unfold row_ok, set_boost; simpl. lia.
  - apply Z.leb_gt in C.
    set (u2 := alter (set_ad_counter (ad_counter row + 1)) uid u1).
    assert (G2 : coins_grow (users d) u2).
    { apply (coins_grow_trans _ u1); [done|]. apply coins_grow_alter.
      intros x _. unfold set_ad_counter; simpl. lia. }
    destruct (u2 !! uid); [|by apply inv_refl]. simpl. split; [|done].
    apply (inv_of_users_change d); try done. simpl. apply forall_alter; [done|].
    intros x Hx. rewrite R in Hx. injection Hx as <-.
    unfold row_ok, set_ad_counter; simpl. lia.
Qed.

Lemma daily_claim_inv (iso date : Z -> string) (now uid : Z) (uname : string) (d : db) :
  store_inv d -> store_inv (snd (daily_claim iso date now uid uname d)) /\
                 users_grow d (snd (daily_claim iso date now uid uname d)).
Proof.
  intros I. unfold daily_claim.
  set (u0 := insert_or_ignore uid (mk_user uname 0 None (Some (iso now)) 0 0 None None) (users d)).
  case_bool_decide; simpl; [by apply inv_refl|].
  assert (G : coins_grow (users d) (alter (add_daily DAILY_REWARD (date now)) uid u0)).
  { apply (coins_grow_trans _ u0); [apply coins_grow_insert_or_ignore|].
    apply coins_grow_alter. intros x _. unfold add_daily, DAILY_REWARD; simpl. lia. }
  split; [|done]. apply (inv_of_users_change d); try done. simpl.
  assert (O0 : forall j x, u0 !! j = Some x -> row_ok x).
  { apply forall_insert_or_ignore; [apply I | unfold row_ok; simpl; lia]. }
  apply forall_alter; [done|]. intros x Hx. destruct (O0 uid x Hx) as (? & ? & ?).
  unfold row_ok, add_daily, DAILY_REWARD; simpl. lia.
Qed.

Lemma set_review_ok (d : db) (st : string) (by_ : Z) (reason : string) (x : submission_row) :
  submission_ok d x -> st = "approved"%string \/ st = "rejected"%string ->
  submission_ok d (set_review st by_ reason x).
Proof.
  intros [Hu _] Hst. split; [done|]. right. split; [done|]. by eexists.
Qed.

Lemma review_inv (fi : string -> option Z) (admins : list Z) (now uid sid : Z)
    (action reason : string) (d : db) :
  store_inv d -> store_inv (snd (review_submission fi admins now uid sid action reason d)) /\
                 users_grow d (snd (review_submission fi admins now uid sid action reason d)).
Proof.
  intros I. pose proof I as (Ht & Hu & Hs & Hr). unfold review_submission.
  destruct (_ || _); [by apply inv_refl|].
  destruct (negb (is_authorized admins uid d)); [by apply inv_refl|].
  destruct (task_submissions d !! sid) as [row|] eqn:S; [|by apply inv_refl].
  destruct (negb (String.eqb (status row) "pending")); [by apply inv_refl|].
  destruct (String.eqb action "approve"); simpl.
  - set (base := match tasks d !! sub_task_id row with Some r => reward r | None => 0 end).
    assert (B : 0 <= base).
    { subst base. destruct (tasks d !! sub_task_id row) eqn:T; [|lia].
      pose proof (Ht _ _ T). lia. }
    set (award := if match users d !! sub_user_id row with
                     | Some brow => boost_active fi now (boost_until brow) | None => false end
                  then base * 2 else base).
    assert (A : 0 <= award) by (subst award; repeat case_match; lia).
    fold award.
    set (d1 := credit (sub_user_id row) award d).
    assert (G : users_grow d d1) by (by apply credit_grow).
    split; [|done].
    split; [done|]. split; [by apply credit_row_ok|]. split.
    + simpl. apply forall_alter.
      * by apply (submissions_ok_grow d d1).
      * intros x Hx. apply set_review_ok; [|by left].
        by apply (submissions_ok_grow d d1 G Hs sid).
    + intros a b Hab. destruct (Hr a b Hab) as (? & ? & Hb). split; [done|]. split; [done|].
      by apply (coins_grow_is_Some (users d)).
  - split; [|apply coins_grow_refl].
    split; [done|]. split; [done|]. split; [|done].
    simpl. apply forall_alter; [done|].
    intros x Hx. apply set_review_ok; [by apply (Hs sid) | by right].
Qed.

Lemma admin_inv_tasks (d d' : db) :
  store_inv d -> users d' = users d -> task_submissions d' = task_submissions d ->
  referrals d' = referrals d ->
  (forall t r, tasks d' !! t = Some r -> 0 < reward r) ->
  store_inv d' /\ users_grow d d'.
Proof.
  intros (Ht & Hu & Hs & Hr) Eu Es Er Ht'. unfold users_grow. rewrite Eu.
  split; [|apply coins_grow_refl]. split; [done|].
  unfold submission_ok. rewrite Eu, Es, Er. done.
Qed.

Lemma delete_task_inv (admins : list Z) (uid tid : Z) (d : db) :
  store_inv d -> store_inv (snd (delete_task admins uid tid d)) /\
                 users_grow d (snd (delete_task admins uid tid d)).
Proof.
  intros I. unfold delete_task.
  destruct (tid =? 0); [by apply inv_refl|].
  destruct (negb _); [by apply inv_refl|]. simpl.
  apply admin_inv_tasks; try done. simpl. intros t r.
  destruct (decide (tid = t)) as [<-|Hne].
  - by rewrite lookup_delete_eq.
  - rewrite lookup_delete_ne by done. apply I.
Qed.

Lemma add_task_inv (admins : list Z) (uid : Z) (ti de li : string) (r nid : Z) (d : db) :
  store_inv d -> store_inv (snd (add_task admins uid ti de li r nid d)) /\
                 users_grow d (snd (add_task admins uid ti de li r nid d)).
Proof.
  intros I. unfold add_task.
  destruct (String.eqb (py_strip ti) "" || (r <=? 0)) eqn:E; [by apply inv_refl|].
  apply orb_false_iff in E as [_ E]. apply Z.leb_gt in E.
  destruct (negb _); [by apply inv_refl|]. simpl.
  apply admin_inv_tasks; try done. simpl. apply forall_insert; [apply I | simpl; lia].
Qed.

Lemma verifier_inv (d d' : db) :
  store_inv d -> users d' = users d -> tasks d' = tasks d ->
  task_submissions d' = task_submissions d -> referrals d' = referrals d ->
  store_inv d' /\ users_grow d d'.
Proof. intros I Eu Et Es Er. apply admin_inv_tasks; try done. rewrite Et. apply I. Qed.

Lemma add_verifier_inv (admins : list Z) (uid vid : Z) (d : db) :
  store_inv d -> store_inv (snd (add_verifier admins uid vid d)) /\
                 users_grow d (snd (add_verifier admins uid vid d)).
Proof.
  intros I. unfold add_verifier.
  destruct (vid =? 0); [by apply inv_refl|]. destruct (negb _); [by apply inv_refl|].
  by apply verifier_inv.
Qed.

Lemma remove_verifier_inv (admins : list Z) (uid vid : Z) (d : db) :
  store_inv d -> store_inv (snd (remove_verifier admins uid vid d)) /\
                 users_grow d (snd (remove_verifier admins uid vid d)).
Proof.
  intros I. unfold remove_verifier.
  destruct (vid =? 0); [by apply inv_refl|]. destruct (negb _); [by apply inv_refl|].
  by apply verifier_inv.
Qed.

Lemma submit_proof_inv (iso strf : Z -> string) (mem : Z -> bool) (updir : string)
    (now uid : Z) (uname : string) (tid : Z) (fn : string) (nid : Z) (files : gset string)
    (d : db) :
  store_inv d ->
  store_inv (snd (fst (submit_proof iso strf mem updir now uid uname tid fn nid d files))) /\
  users_grow d (snd (fst (submit_proof iso strf mem updir now uid uname tid fn nid d files))).
Proof.
  intros I. pose proof I as (Ht & Hu & Hs & Hr). unfold submit_proof.
  destruct (negb (mem uid)); simpl; [by apply inv_refl|].
  set (u := insert_or_ignore uid (mk_user uname 0 None None 0 0 None None) (users d)).
  set (d' := mk_db u (tasks d) _ (verifiers d) (referrals d)).
  assert (G : users_grow d d') by apply coins_grow_insert_or_ignore.
  split; [|done]. split; [done|]. split.
  - apply forall_insert_or_ignore; [done | unfold row_ok; simpl; lia].
  - split.
    + apply forall_insert.
      * by apply (submissions_ok_grow d d').
      * split; [unfold d', u; cbn [users sub_user_id]; rewrite insert_or_ignore_eq; by eexists | by left].
    + intros a b Hab. destruct (Hr a b Hab) as (? & ? & Hb). split; [done|]. split; [done|].
      by apply (coins_grow_is_Some (users d)).
Qed.

Section Reach.

Variable fi : string -> option Z.
Variable iso date strf : Z -> string.
Variable mem : Z -> bool.
Variable admins : list Z.
Variable updir : string.

(** X1: every committed handler run keeps the store invariant (positive task
    rewards; non-negative balances and ad counts; ad streak in [0, 2];
    submissions owned by an existing user and either pending unreviewed or
    approved/rejected with a reviewer; referral edges from a non-zero
    referrer to a different, registered user), and never deletes a user row
    or lowers a balance. *)
Theorem step_preserves_store_inv (d d' : db) :
  store_inv d -> step fi iso date strf mem admins updir d d' ->
  store_inv d' /\ users_grow d d'.
Proof.
  intros I S. destruct S.
  - by apply bot_start_inv.
  - by apply ad_watched_inv.
  - by apply daily_claim_inv.
  - by apply review_inv.
  - by apply delete_task_inv.
  - by apply add_task_inv.
  - by apply submit_proof_inv.
  - by apply add_verifier_inv.
  - by apply remove_verifier_inv.
Qed.

Lemma reachable_inv (d : db) : reachable fi iso date strf mem admins updir d -> store_inv d.
Proof.
  induction 1 as [|d d' _ IH S].
  - split; [done|]. split; [done|]. split; [done|]. intros a b H. set_solver.
  - by apply (step_preserves_store_inv d).
Qed.

(** X2: in every reachable store each task's reward is positive. *)
Theorem reachable_task_rewards_positive (d : db) (t : Z) (r : task_row) :
  reachable fi iso date strf mem admins updir d -> tasks d !! t = Some r -> 0 < reward r.
Proof. intros R. apply (reachable_inv d R). Qed.

(** X3: in every reachable store each user's balance and ad count are
    non-negative and the ad streak counter lies in [0, 2]. *)
Theorem reachable_user_rows_bounded (d : db) (u : Z) (r : user_row) :
  reachable fi iso date strf mem admins updir d -> users d !! u = Some r ->
  0 <= coins r /\ 0 <= ads_watched r /\ 0 <= ad_counter r <= 2.
Proof. intros R. apply (reachable_inv d R). Qed.

(** X4: in every reachable store each submission belongs to a user that has
    a row, and it is either pending with no reviewer, or approved or
    rejected with a reviewer recorded. *)
Theorem reachable_submissions_well_formed (d : db) (s : Z) (r : submission_row) :
  reachable fi iso date strf mem admins updir d -> task_submissions d !! s = Some r ->
  is_Some (users d !! sub_user_id r) /\
  ((status r = "pending"%string /\ reviewed_by r = None) \/
   ((status r = "approved"%string \/ status r = "rejected"%string) /\ is_Some (reviewed_by r))).
Proof. intros R. apply (reachable_inv d R). Qed.

(** X5: in every reachable store an authorized approval of a pending
    submission pays into an existing row: the submitter's balance grows by
    exactly the awarded amount, which is non-negative. *)
Theorem reachable_approval_credit_lands (now uid sid : Z) (reason : string) (d : db)
    (s : submission_row) :
  reachable fi iso date strf mem admins updir d ->
  sid ≠ 0 -> is_authorized admins uid d = true ->
  task_submissions d !! sid = Some s -> status s = "pending"%string ->
  exists award u u',
    fst (review_submission fi admins now uid sid "approve" reason d) = ReviewApproved award /\
    0 <= award /\
    users d !! sub_user_id s = Some u /\
    users (snd (review_submission fi admins now uid sid "approve" reason d)) !! sub_user_id s
      = Some u' /\
    coins u' = coins u + award.
Proof.
  intros R Hs Ha Hsub Hst. pose proof (reachable_inv d R) as (Ht & Hu & Hss & _).
  destruct (Hss sid s Hsub) as [[u Hu0] _].
  rewrite (review_approve_pending fi admins now uid sid reason d s Hs Ha Hsub Hst).
  cbv zeta. simpl fst. simpl snd.
  set (award := if match users d !! sub_user_id s with
                   | Some brow => boost_active fi now (boost_until brow) | None => false end
                then (match tasks d !! sub_task_id s with Some r => reward r | None => 0 end) * 2
                else match tasks d !! sub_task_id s with Some r => reward r | None => 0 end).
  exists award, u, (add_coins award u). split; [done|]. split.
  { subst award. destruct (tasks d !! sub_task_id s) eqn:T.
    - pose proof (Ht _ _ T). repeat case_match; lia.
    - repeat case_match; lia. }
  split; [done|]. split.
  - unfold set_submissions; cbn [users]. rewrite credit_lookup, bool_decide_eq_true_2 by done.
    by rewrite Hu0.
  - reflexivity.
Qed.

(** X6: in every reachable store each referral edge (a, b) has a non-zero
    referrer a different from b, and b has a users row. *)
Theorem reachable_referral_edges (d : db) (a b : Z) :
  reachable fi iso date strf mem admins updir d -> (a, b) ∈ referrals d ->
  a ≠ 0 /\ a ≠ b /\ is_Some (users d !! b).
Proof. intros R. apply (reachable_inv d R). Qed.

End Reach.

End StoreFacts.

(* ------------------------------------------------------------------ *)
(** ** Error paths, round trips and compositions of the handlers *)

Module HandlerFacts.

(** The outcomes of [review_submission]: an HTTP error or "already
    reviewed" leave the store as it was; otherwise the row was pending and
    the action was one of the two valid ones. *)
Lemma review_cases (fi : string -> option Z) (admins : list Z) (now uid sid : Z)
    (action reason : string) (d : db) :
  let r := review_submission fi admins now uid sid action reason d in
  (exists code msg, r = (ReviewHTTPError code msg, d)) \/ r = (ReviewAlready, d) \/
  exists s, sid ≠ 0 /\ is_authorized admins uid d = true /\
    task_submissions d !! sid = Some s /\ status s = "pending"%string /\
    ((action = "approve"%string /\ exists award,
        let d1 := credit (sub_user_id s) award d in
        r = (ReviewApproved award,
             set_submissions d1 (alter (set_review "approved" uid reason) sid
                                   (task_submissions d1)))) \/
     (action = "reject"%string /\
        r = (ReviewRejected,
             set_submissions d (alter (set_review "rejected" uid reason) sid
                                  (task_submissions d))))).
Proof.
  cbv zeta. unfold review_submission.
  destruct ((sid =? 0) || negb (String.eqb action "approve" || String.eqb action "reject"))
    eqn:G; [left; eauto|].
  destruct (is_authorized admins uid d) eqn:Au; simpl negb; cbv iota; [|left; eauto].
  destruct (task_submissions d !! sid) as [s|] eqn:S; [|left; eauto].
  destruct (String.eqb (status s) "pending") eqn:P; simpl negb; cbv iota;
    [|right; left; done].
  right; right. exists s. apply orb_false_iff in G as [G1 G2].
  split; [by apply Z.eqb_neq|]. split; [done|]. split; [done|].
  split; [by apply String.eqb_eq|].
  destruct (String.eqb action "approve") eqn:A.
  - left. split; [by apply String.eqb_eq|]. eexists. reflexivity.
  - right. split; [|done]. simpl in G2. by apply negb_false_iff, String.eqb_eq in G2.
Qed.

(** X7: every outcome of [review_submission] other than approved or
    rejected (the 400, 403 and 404 errors and "already reviewed") leaves the
    store unchanged. *)
Theorem review_error_keeps_store (fi : string -> option Z) (admins : list Z)
    (now uid sid : Z) (action reason : string) (d : db) :
  match fst (review_submission fi admins now uid sid action reason d) with
  | ReviewApproved _ | ReviewRejected => True
  | _ => snd (review_submission fi admins now uid sid action reason d) = d
  end.
Proof.
  destruct (review_cases fi admins now uid sid action reason d)
    as [(c & m & ->) | [-> | (s & _ & _ & _ & _ & [(_ & a & ->) | (_ & ->)])]]; done.
Qed.

(** X8: a rejection pays nobody: it changes no user row, task, verifier or
    referral, and only marks the pending submission rejected by the
    reviewer with the given reason. *)
Theorem review_reject_pays_nothing (fi : string -> option Z) (admins : list Z)
    (now uid sid : Z) (action reason : string) (d : db) :
  fst (review_submission fi admins now uid sid action reason d) = ReviewRejected ->
  let d' := snd (review_submission fi admins now uid sid action reason d) in
  users d' = users d /\ tasks d' = tasks d /\ verifiers d' = verifiers d /\
  referrals d' = referrals d /\
  exists s, task_submissions d !! sid = Some s /\ status s = "pending"%string /\
    task_submissions d' !! sid = Some (set_review "rejected" uid reason s).
Proof.
  intros H d'. subst d'.
  destruct (review_cases fi admins now uid sid action reason d)
    as [(c & m & E) | [E | (s & _ & _ & Hs & Hp & [(_ & a & E) | (_ & E)])]];
    rewrite E in H |- *; try discriminate.
  simpl. split; [done|]. split; [done|]. split; [done|]. split; [done|].
  exists s. split; [done|]. split; [done|]. by rewrite lookup_alter_eq, Hs.
Qed.

(** X9: a submission is paid or rejected at most once: after an approval or
    a rejection, every later review of the same submission, by anyone and
    with any action, neither approves nor rejects it and leaves the store
    unchanged. *)
Theorem review_at_most_once (fi : string -> option Z) (admins : list Z)
    (now uid sid : Z) (action reason : string) (d : db)
    (now2 uid2 : Z) (action2 reason2 : string) :
  (exists a, fst (review_submission fi admins now uid sid action reason d) = ReviewApproved a) \/
  fst (review_submission fi admins now uid sid action reason d) = ReviewRejected ->
  let d1 := snd (review_submission fi admins now uid sid action reason d) in
  (forall a, fst (review_submission fi admins now2 uid2 sid action2 reason2 d1)
               ≠ ReviewApproved a) /\
  fst (review_submission fi admins now2 uid2 sid action2 reason2 d1) ≠ ReviewRejected /\
  snd (review_submission fi admins now2 uid2 sid action2 reason2 d1) = d1.
Proof.
  intros H d1.
  assert (D : exists s, task_submissions d1 !! sid = Some s /\ status s ≠ "pending"%string).
  { subst d1.
    destruct (review_cases fi admins now uid sid action reason d)
      as [(c & m & E) | [E | (s & _ & _ & Hs & Hp & [(_ & a & E) | (_ & E)])]];
      rewrite E in H |- *; try (destruct H as [[? ?]|?]; discriminate).
    - eexists. simpl. unfold credit, set_users, set_submissions; cbn [task_submissions].
      split; [rewrite lookup_alter_eq, Hs; reflexivity|]. done.
    - eexists. simpl. split; [rewrite lookup_alter_eq, Hs; reflexivity|]. done. }
  destruct D as (s & Hs & Hp).
  destruct (review_cases fi admins now2 uid2 sid action2 reason2 d1)
    as [(c & m & E) | [E | (s' & _ & _ & Hs' & Hp' & _)]].
  - by rewrite E.
  - by rewrite E.
  - rewrite Hs in Hs'. injection Hs' as <-. contradiction.
Qed.

(** X10: the boost flag that [balance] shows is the one an approval uses:
    when the dashboard reports boost [b] for the submitter, an authorized
    approval of the pending submission pays the task's reward, doubled
    exactly when [b] holds. *)
Theorem balance_boost_matches_review (fi : string -> option Z) (admins : list Z)
    (now uid sid : Z) (reason : string) (d : db) (s : submission_row) (t : task_row)
    (c a : Z) (b : bool) :
  balance fi now (sub_user_id s) d = BalanceOk c a b ->
  sid ≠ 0 -> is_authorized admins uid d = true ->
  task_submissions d !! sid = Some s -> status s = "pending"%string ->
  tasks d !! sub_task_id s = Some t ->
  fst (review_submission fi admins now uid sid "approve" reason d) =
    ReviewApproved (if b then reward t * 2 else reward t).
Proof.
  intros Hb Hs Ha Hsub Hp Ht.
  rewrite (review_approve_pending fi admins now uid sid reason d s Hs Ha Hsub Hp).
  cbv zeta. simpl fst. rewrite Ht. unfold balance in Hb.
  destruct (users d !! sub_user_id s) as [r|]; injection Hb as _ _ <-; [|done].
  reflexivity.
Qed.

Lemma daily_claim_marks_day (iso date : Z -> string) (t uid : Z) (uname : string) (d : db) :
  exists row, users (snd (daily_claim iso date t uid uname d)) !! uid = Some row /\
              last_daily row = Some (date t).
Proof.
  unfold daily_claim. cbv zeta. rewrite insert_or_ignore_eq. cbn iota beta.
  case_bool_decide as B.
  - simpl snd. destruct (users d !! uid) as [u|]; [eauto | simpl in B; discriminate].
  - simpl snd. unfold set_users; cbn [users]. rewrite lookup_alter_eq, insert_or_ignore_eq.
    eexists; split; reflexivity.
Qed.

Lemma daily_claim_already (iso date : Z -> string) (t uid : Z) (uname : string) (d : db)
    (row : user_row) :
  users d !! uid = Some row -> last_daily row = Some (date t) ->
  daily_claim iso date t uid uname d = (DailyAlready, d).
Proof.
  intros U L. unfold daily_claim. cbv zeta. rewrite insert_or_ignore_eq, U. cbn iota beta.
  by rewrite bool_decide_eq_true_2.
Qed.

(** X11: a second daily claim on the same calendar day is refused and
    leaves the store as the first claim left it, whether the first claim
    paid or was itself refused. *)
Theorem daily_claim_same_day_refused (iso date : Z -> string) (t1 t2 uid : Z)
    (uname uname2 : string) (d : db) :
  date t2 = date t1 ->
  let d1 := snd (daily_claim iso date t1 uid uname d) in
  daily_claim iso date t2 uid uname2 d1 = (DailyAlready, d1).
Proof.
  intros Hd d1. destruct (daily_claim_marks_day iso date t1 uid uname d) as (row & U & L).
  apply (daily_claim_already iso date t2 uid uname2 d1 row U). by rewrite Hd.
Qed.

(** X12: [/start] never changes the caller's own row once it exists (no
    second welcome bonus, whatever the arguments), and a first [/start]
    creates it with 100 coins; an argument on which [int] raises (the
    ValueError of line 447) leaves the store, and so the row, as it was. *)
Theorem bot_start_own_row (iso : Z -> string) (now uid : Z) (uname : string)
    (args : list string) (d : db) :
  users (bot_start iso now uid uname args d) !! uid =
  match parse_start_arg args with
  | StartValueError => users d !! uid
  | _ => Some (match users d !! uid with
               | Some u => u
               | None => mk_user uname START_COINS None (Some (iso now)) 0 0 None None
               end)
  end.
Proof.
  unfold bot_start.
  assert (E : users (set_users d (insert_or_ignore uid
              (mk_user uname START_COINS None (Some (iso now)) 0 0 None None) (users d))) !! uid
              = Some (match users d !! uid with
                      | Some u => u
                      | None => mk_user uname START_COINS None (Some (iso now)) 0 0 None None
                      end)).
  { unfold set_users; cbn [users]. apply insert_or_ignore_eq. }
  destruct (parse_start_arg args) as [|r|]; [exact E| |done].
  destruct (negb (r =? 0) && negb (r =? uid)) eqn:C; [|exact E].
  apply andb_true_iff in C as [_ C]. apply negb_true_iff, Z.eqb_neq in C.
  rewrite credit_lookup, bool_decide_eq_false_2 by done. exact E.
Qed.

(** X13: a [/start] whose first argument is missing, not all digits, not
    readable by [int], 0 or the caller's own id records no referral and
    changes no other user's row. *)
Theorem bot_start_no_referral (iso : Z -> string) (now uid : Z) (uname : string)
    (args : list string) (d : db) :
  start_referrer args = None \/ start_referrer args = Some 0 \/ start_referrer args = Some uid ->
  referrals (bot_start iso now uid uname args d) = referrals d /\
  forall k, k ≠ uid -> users (bot_start iso now uid uname args d) !! k = users d !! k.
Proof.
  intros H. unfold start_referrer in H. unfold bot_start.
  assert (B : forall k, k ≠ uid -> users (set_users d (insert_or_ignore uid
              (mk_user uname START_COINS None (Some (iso now)) 0 0 None None) (users d))) !! k
              = users d !! k).
  { intros k Hk. unfold set_users; cbn [users]. by apply insert_or_ignore_ne. }
  destruct (parse_start_arg args) as [|r|]; [done| |done].
  destruct H as [[=] | [[= ->] | [= ->]]].
  - rewrite Z.eqb_refl. done.
  - rewrite Z.eqb_refl, andb_false_r. done.
Qed.


Lemma drop_space_all (l : list (list ascii)) :
  Forall (fun c => py_isspace (chunk_cp c) = true) l -> drop_space l = [].
Proof. induction 1 as [|x l Hx _ IH]; [done|]. simpl. by rewrite Hx. Qed.

(** X15: [add_task] refuses a title made only of whitespace characters
    (Unicode ones such as U+00A0 included: it is empty after [strip()]) with
    the 400 error and leaves the store unchanged. *)
Theorem add_task_blank_title (admins : list Z) (uid : Z) (title description link : string)
    (r nid : Z) (d : db) :
  Forall (fun c => py_isspace (chunk_cp c) = true) (utf8_chunks (list_ascii_of_string title)) ->
  add_task admins uid title description link r nid d =
    (AdminHTTPError 400 "init_data, title and positive reward required", d).
Proof.
  intros H. unfold add_task, py_strip. rewrite (drop_space_all _ H). reflexivity.
Qed.

End HandlerFacts.

(* ------------------------------------------------------------------ *)
(** ** Paths, channel names and decimal ids *)

Module TextFacts.

Lemma str_app_nil (t : string) : (EmptyString ++ t)%string = t.
Proof. reflexivity. Qed.

Lemma str_app_cons (x : ascii) (s t : string) : (String x s ++ t)%string = String x (s ++ t).
Proof. reflexivity. Qed.


Lemma eqb_slash_false (c : ascii) : Ascii.eqb slash c = false -> Ascii.eqb c slash = false.
Proof.
  intros H. destruct (Ascii.eqb c slash) eqn:E; [|done].
  apply Ascii.eqb_eq in E. subst c. by rewrite Ascii.eqb_refl in H.
Qed.

Lemma basename_no_slash (b : string) : has_char slash b = false -> basename b = b.
Proof.
  induction b as [|c r IH]; cbn [basename has_char]; [done|].
  intros H. apply orb_false_iff in H as [H1 H2]. rewrite H2, (eqb_slash_false c H1). done.
Qed.








Lemma split_on_no_c (c : ascii) (s : string) :
  Forall (fun p => has_char c p = false) (split_on c s).
Proof.
  induction s as [|x r IH]; cbn [split_on]; [by repeat constructor|].
  destruct (Ascii.eqb c x) eqn:E.
  - constructor; [done | exact IH].
  - destruct (split_on c r) as [|p ps].
    + constructor; [cbn [has_char]; by rewrite E | constructor].
    + inversion IH as [|? ? Hp Hps]; subst.
      constructor; [cbn [has_char]; by rewrite E, Hp | done].
Qed.

Lemma last_piece_Forall (P : string -> Prop) (l : list string) :
  P EmptyString -> Forall P l -> P (last_piece l).
Proof. intros H0. induction 1 as [|x l Hx Hl IH]; [done|]. destruct l; [done|]. exact IH. Qed.

Lemma split_on_no_sep (c : ascii) (b : string) : has_char c b = false -> split_on c b = [b].
Proof.
  induction b as [|x r IH]; cbn [split_on has_char]; [done|].
  intros H. apply orb_false_iff in H as [H1 H2]. rewrite H1, IH by done. done.
Qed.

Lemma split_on_app_sep (c : ascii) (a b : string) :
  exists pre, pre ≠ [] /\ split_on c (a ++ String c b) = pre ++ split_on c b.
Proof.
  induction a as [|x r IH]; rewrite ?str_app_nil, ?str_app_cons; cbn [split_on].
  - rewrite Ascii.eqb_refl. by exists [EmptyString].
  - destruct IH as (pre & Hpre & E). rewrite E.
    destruct (Ascii.eqb c x).
    + exists (EmptyString :: pre). done.
    + destruct pre as [|p pre]; [done|]. exists (String x p :: pre). done.
Qed.

Lemma last_piece_snoc (pre : list string) (b : string) : last_piece (pre ++ [b]) = b.
Proof.
  induction pre as [|x pre IH]; [done|]. cbn [app].
  destruct (pre ++ [b]) eqn:E; [destruct pre; discriminate|]. exact IH.
Qed.

Lemma list_ascii_app (s t : string) :
  list_ascii_of_string (s ++ t) = list_ascii_of_string s ++ list_ascii_of_string t.
Proof. induction s as [|x s IH]; rewrite ?str_app_nil, ?str_app_cons; cbn [list_ascii_of_string]; [done|]. by rewrite IH. Qed.

Lemma rstrip_snoc (c : ascii) (s : string) :
  rstrip_char c (s ++ String c EmptyString) = rstrip_char c s.
Proof.
  unfold rstrip_char. rewrite list_ascii_app. cbn [list_ascii_of_string].
  rewrite rev_app_distr. cbn [rev app drop_while_char]. by rewrite Ascii.eqb_refl.
Qed.

Lemma has_char_In (c x : ascii) (s : string) :
  has_char c s = false -> In x (list_ascii_of_string s) -> Ascii.eqb x c = false.
Proof.
  induction s as [|y s IH]; cbn [has_char list_ascii_of_string In]; [done|].
  intros H [-> | Hin]; apply orb_false_iff in H as [H1 H2].
  - destruct (Ascii.eqb x c) eqn:E; [|done]. apply Ascii.eqb_eq in E. subst.
    by rewrite Ascii.eqb_refl in H1.
  - by apply IH.
Qed.

Lemma rstrip_keeps (c : ascii) (a b : string) :
  has_char c b = false -> b ≠ EmptyString ->
  rstrip_char c (a ++ String c b) = (a ++ String c b)%string.
Proof.
  intros Hb Hne. unfold rstrip_char.
  assert (D : forall l, drop_while_char c (rev (list_ascii_of_string a ++ c :: l)) =
                        rev (list_ascii_of_string a ++ c :: l) ->
              string_of_list_ascii (rev (drop_while_char c
                 (rev (list_ascii_of_string a ++ c :: l)))) =
              string_of_list_ascii (list_ascii_of_string a ++ c :: l)).
  { intros l E. by rewrite E, rev_involutive. }
  rewrite list_ascii_app. cbn [list_ascii_of_string].
  rewrite D; [|].
  - change (c :: list_ascii_of_string b) with (list_ascii_of_string (String c b)).
    rewrite <- list_ascii_app. apply string_of_list_ascii_of_string.
  - rewrite rev_app_distr. cbn [rev]. rewrite <- app_assoc.
    destruct (rev (list_ascii_of_string b)) as [|x m] eqn:R.
    + destruct b; [done|]. cbn [list_ascii_of_string rev] in R.
      destruct (rev (list_ascii_of_string b)); discriminate.
    + assert (Hx : Ascii.eqb x c = false).
      { apply (has_char_In c x b Hb). apply in_rev. rewrite R. by left. }
      cbn [app drop_while_char]. by rewrite Hx.
Qed.























End TextFacts.

Module FlowFacts.
Import TextFacts.


(** X17: [extract_channel_username] ignores a trailing slash, and for a
    link [prefix/name] with a non-empty [name] free of slashes it returns
    [name]. *)
Theorem extract_channel_username_spec (s a b : string) :
  extract_channel_username (s ++ String slash EmptyString) = extract_channel_username s /\
  (has_char slash b = false -> b ≠ EmptyString ->
   extract_channel_username (a ++ String slash b) = b).
Proof.
  split.
  - unfold extract_channel_username. by rewrite rstrip_snoc.
  - intros Hb Hne. unfold extract_channel_username. rewrite rstrip_keeps by done.
    destruct (split_on_app_sep slash a b) as (pre & _ & ->).
    rewrite split_on_no_sep by done. apply last_piece_snoc.
Qed.

(** X18: the channel name [extract_channel_username] returns never
    contains a slash. *)
Theorem extract_channel_username_no_slash (link : string) :
  has_char slash (extract_channel_username link) = false.
Proof.
  unfold extract_channel_username.
  apply (last_piece_Forall (fun p => has_char slash p = false)); [done|].
  apply split_on_no_c.
Qed.



Lemma seq_snoc (s n : nat) : seq s (S n) = seq s n ++ [(s + n)%nat].
Proof.
  revert s. induction n as [|n IH]; intros s; [by rewrite Nat.add_0_r|].
  change (seq s (S (S n))) with (s :: seq (S s) (S n)). rewrite IH.
  change (seq s (S n)) with (s :: seq (S s) n). simpl. do 3 f_equal. lia.
Qed.

(** X20: for a valid page size the pages of [get_tasks] tile the task
    list: pages 1 to n, concatenated, are exactly its first n * per_page
    rows, so no task is skipped or shown twice between pages. *)
Theorem tasks_pages_concat (d : db) (pp : Z) (n : nat) :
  1 <= pp <= 50 ->
  concat (map (fun p => match get_tasks (Z.of_nat p) pp d with
                        | Some (rows, _) => rows | None => [] end) (seq 1 n))
  = take (n * Z.to_nat pp) (sort_desc (map_to_list (tasks d))).
Proof.
  intros Hpp. induction n as [|n IH]; [done|].
  rewrite seq_snoc, map_app, concat_app, IH. cbn [map concat]. rewrite app_nil_r.
  unfold get_tasks.
  assert (G : (Z.of_nat (1 + n) <? 1) || (pp <? 1) || (50 <? pp) = false).
  { apply orb_false_iff; split; [apply orb_false_iff; split|]; apply Z.ltb_ge; lia. }
  rewrite G. cbv zeta.
  replace ((Z.of_nat (1 + n) - 1) * pp) with (Z.of_nat n * pp) by lia.
  rewrite Z2Nat.inj_mul, Nat2Z.id by lia.
  rewrite take_take_drop. f_equal. lia.
Qed.

Lemma insert_desc_perm (x : Z * task_row) (l : list (Z * task_row)) :
  insert_desc x l ≡ₚ x :: l.
Proof.
  induction l as [|y l IH]; cbn [insert_desc]; [done|].
  destruct (fst y <? fst x); [done|]. rewrite IH. by constructor.
Qed.

Lemma sort_desc_perm (l : list (Z * task_row)) : sort_desc l ≡ₚ l.
Proof.
  induction l as [|x l IH]; [done|]. unfold sort_desc in *. cbn [fold_right].
  rewrite insert_desc_perm. by rewrite IH.
Qed.

Lemma insert_desc_hd (y x : Z * task_row) (l : list (Z * task_row)) :
  HdRel (fun a b : Z * task_row => fst b < fst a) y l -> fst x < fst y ->
  HdRel (fun a b : Z * task_row => fst b < fst a) y (insert_desc x l).
Proof.
  destruct l as [|z l]; cbn [insert_desc]; intros H Hx; [by constructor|].
  destruct (fst z <? fst x); constructor; [done | by inversion H].
Qed.

Lemma insert_desc_sorted (x : Z * task_row) (l : list (Z * task_row)) :
  Sorted (fun a b : Z * task_row => fst b < fst a) l ->
  (forall y, In y l -> fst y ≠ fst x) ->
  Sorted (fun a b : Z * task_row => fst b < fst a) (insert_desc x l).
Proof.
  induction 1 as [|y l Hl IH Hhd]; intros Hne; cbn [insert_desc]; [by repeat constructor|].
  destruct (fst y <? fst x) eqn:E.
  - apply Z.ltb_lt in E. constructor; [by constructor|]. by constructor.
  - apply Z.ltb_ge in E. assert (fst y ≠ fst x) by (apply Hne; by left). constructor.
    + apply IH. intros z Hz. apply Hne. by right.
    + apply insert_desc_hd; [done | lia].
Qed.

Lemma sort_desc_sorted (l : list (Z * task_row)) :
  NoDup (map fst l) -> Sorted (fun a b : Z * task_row => fst b < fst a) (sort_desc l).
Proof.
  induction l as [|x l IH]; intros H; [constructor|]. cbn [map] in H.
  apply NoDup_cons in H as [Hx Hl]. unfold sort_desc; cbn [fold_right]; fold (sort_desc l).
  apply insert_desc_sorted; [by apply IH|]. intros y Hy E. apply Hx.
  rewrite <- E. apply list_elem_of_In, in_map.
  apply (Permutation_in _ (sort_desc_perm l)) in Hy. exact Hy.
Qed.

(** X21: the listing [get_tasks] pages through holds every task row
    exactly once ([(k, t)] is listed iff task [k] is [t]) with task ids in
    strictly decreasing order. *)
Theorem tasks_listing_order (d : db) :
  (forall k t, (k, t) ∈ sort_desc (map_to_list (tasks d)) <-> tasks d !! k = Some t) /\
  NoDup (sort_desc (map_to_list (tasks d))) /\
  Sorted (fun a b : Z * task_row => fst b < fst a) (sort_desc (map_to_list (tasks d))).
Proof.
  split; [|split].
  - intros k t. rewrite <- elem_of_map_to_list.
    split; intros H; [by rewrite <- (sort_desc_perm (map_to_list (tasks d))) |
                      by rewrite (sort_desc_perm (map_to_list (tasks d)))].
  - rewrite (sort_desc_perm (map_to_list (tasks d))). apply NoDup_map_to_list.
  - apply sort_desc_sorted, NoDup_fst_map_to_list.
Qed.

End FlowFacts.

Module SessionExtra.
Import Session.

Lemma dict_get_set_ne (k k' v : string) (d : list (string * string)) :
  k ≠ k' -> dict_get k (dict_set k' v d) = dict_get k d.
Proof.
  intros Hne. induction d as [|[k0 v0] r IH]; cbn [dict_set dict_get].
  - destruct (String.eqb k k') eqn:E; [apply String.eqb_eq in E; congruence | done].
  - destruct (String.eqb k' k0) eqn:E; cbn [dict_get].
    + apply String.eqb_eq in E. subst k0.
      destruct (String.eqb k k') eqn:E'; [apply String.eqb_eq in E'; congruence | done].
    + destruct (String.eqb k k0); [done | exact IH].
Qed.

Lemma dict_get_fold_absent (k : string) (l acc : list (string * string)) :
  ~ In k (map fst l) ->
  dict_get k (fold_left (fun acc kv => dict_set (fst kv) (snd kv) acc) l acc) = dict_get k acc.
Proof.
  revert acc. induction l as [|[k' v'] l IH]; intros acc H; cbn [fold_left]; [done|].
  cbn [map fst In] in H. rewrite IH by tauto. cbn [fst snd].
  apply dict_get_set_ne. intros ->. apply H. by left.
Qed.

Lemma dict_get_remove_ne (k k0 : string) (d : list (string * string)) :
  k ≠ k0 -> dict_get k (dict_remove k0 d) = dict_get k d.
Proof.
  intros Hne. induction d as [|[k' v'] r IH]; cbn [dict_remove dict_get]; [done|].
  destruct (String.eqb k0 k') eqn:E.
  - apply String.eqb_eq in E. subst k'.
    destruct (String.eqb k k0) eqn:E'; [apply String.eqb_eq in E'; congruence | exact IH].
  - cbn [dict_get]. destruct (String.eqb k k'); [done | exact IH].
Qed.

(** X23: when a field name other than [hash] occurs more than once in the
    init data, the last occurrence is the value that is signed and handed
    to the handlers. *)
Theorem fields_last_value_wins (l l' : list (string * string)) (k v : string) :
  k ≠ "hash"%string -> ~ In k (map fst l') ->
  dict_get k (fields_of (l ++ (k, v) :: l')) = Some v.
Proof.
  intros Hk Hl. unfold fields_of, dict_of_pairs. rewrite dict_get_remove_ne by done.
  rewrite fold_left_app. cbn [fold_left]. rewrite dict_get_fold_absent by done.
  cbn [fst snd]. apply SessionFacts.dict_get_set_eq.
Qed.

Lemma dict_get_none (k : string) (d : list (string * string)) :
  ~ In k (map fst d) -> dict_get k d = None.
Proof.
  induction d as [|[k' v'] r IH]; intros H; cbn [dict_get]; [done|].
  cbn [map fst In] in H. destruct (String.eqb k k') eqn:E.
  - apply String.eqb_eq in E. subst. tauto.
  - apply IH. tauto.
Qed.

Lemma dict_set_absent (k v : string) (d : list (string * string)) :
  dict_get k d = None -> dict_set k v d = d ++ [(k, v)].
Proof.
  induction d as [|[k0 v0] r IH]; cbn [dict_get dict_set]; [done|].
  destruct (String.eqb k k0); [discriminate|]. intros H. by rewrite IH.
Qed.

Lemma dict_of_pairs_nodup (l : list (string * string)) :
  NoDup (map fst l) -> dict_of_pairs l = l.
Proof.
  induction l as [|[k v] l IH] using rev_ind; intros H; [done|].
  rewrite SessionFacts.dict_of_pairs_snoc. rewrite map_app in H. cbn [map fst] in H.
  apply NoDup_app in H as (H1 & H2 & _). rewrite IH by done.
  apply dict_set_absent, dict_get_none. intros Hin.
  apply (H2 k); [by apply list_elem_of_In | by left].
Qed.

Lemma dict_remove_perm (k : string) (l l' : list (string * string)) :
  l ≡ₚ l' -> dict_remove k l ≡ₚ dict_remove k l'.
Proof.
  induction 1 as [|[k0 v0] l l' _ IH|[k0 v0] [k1 v1] l|l l' l'' _ IH1 _ IH2];
    cbn [dict_remove].
  - done.
  - destruct (String.eqb k k0); [done | by constructor].
  - destruct (String.eqb k k0), (String.eqb k k1); try done; by constructor.
  - by etrans.
Qed.

Lemma dict_remove_keys (k x : string) (l : list (string * string)) :
  In x (map fst (dict_remove k l)) -> In x (map fst l).
Proof.
  induction l as [|[k0 v0] r IH]; cbn [dict_remove]; [done|].
  destruct (String.eqb k k0); cbn [map fst In]; [intros H; right; by apply IH|].
  intros [H|H]; [by left | right; by apply IH].
Qed.

Lemma dict_remove_nodup (k : string) (l : list (string * string)) :
  NoDup (map fst l) -> NoDup (map fst (dict_remove k l)).
Proof.
  induction l as [|[k0 v0] r IH]; cbn [dict_remove]; [done|]. cbn [map fst].
  intros H. apply NoDup_cons in H as [Hx Hr].
  destruct (String.eqb k k0); [by apply IH|]. cbn [map fst]. apply NoDup_cons; split.
  - intros Hin. apply Hx, list_elem_of_In, (dict_remove_keys k). by apply list_elem_of_In.
  - by apply IH.
Qed.

Lemma dict_get_perm (k : string) (l l' : list (string * string)) :
  NoDup (map fst l) -> l ≡ₚ l' -> dict_get k l = dict_get k l'.
Proof.
  intros H P. revert H. induction P as [|[k0 v0] l l' _ IH|[k0 v0] [k1 v1] l|l l' l'' P1 IH1 _ IH2];
    cbn [dict_get map fst]; intros H.
  - done.
  - apply NoDup_cons in H as [_ H]. destruct (String.eqb k k0); [done | by apply IH].
  - apply NoDup_cons in H as [Hx _].
    destruct (String.eqb k k1) eqn:E1, (String.eqb k k0) eqn:E0; try done.
    apply String.eqb_eq in E1, E0. subst. exfalso. apply Hx. by left.
  - rewrite IH1 by done. apply IH2.
    assert (M : map fst l ≡ₚ map fst l') by (by apply Permutation_map). by rewrite <- M.
Qed.

Lemma ltb_le_l (k k' : string) : String.ltb k k' = true -> strings.String.le k k'.
Proof.
  unfold String.ltb, strings.String.le, String.leb. destruct (String.compare k k'); try discriminate.
  intros _. exact I.
Qed.

Lemma ltb_false_le (k k' : string) : String.ltb k k' = false -> strings.String.le k' k.
Proof.
  unfold String.ltb, strings.String.le, String.leb. rewrite (String.compare_antisym k' k).
  destruct (String.compare k k'); cbn; intros H; [exact I | discriminate | exact I].
Qed.

Lemma insert_key_perm (k : string) (l : list string) : insert_key k l ≡ₚ k :: l.
Proof.
  induction l as [|k' l IH]; cbn [insert_key]; [done|].
  destruct (String.ltb k k'); [done|]. rewrite IH. by constructor.
Qed.

Lemma sort_keys_perm (l : list string) : sort_keys l ≡ₚ l.
Proof. induction l as [|k l IH]; cbn [sort_keys]; [done|]. rewrite insert_key_perm. by rewrite IH. Qed.

Lemma insert_key_sorted (k : string) (l : list string) :
  Sorted strings.String.le l -> Sorted strings.String.le (insert_key k l).
Proof.
  induction 1 as [|k' l Hl IH Hhd]; cbn [insert_key]; [by repeat constructor|].
  destruct (String.ltb k k') eqn:E.
  - constructor; [by constructor|]. constructor. by apply ltb_le_l.
  - constructor; [exact IH|]. apply ltb_false_le in E.
    destruct l as [|k'' l]; cbn [insert_key]; [by constructor|].
    destruct (String.ltb k k''); constructor; [exact E | by inversion Hhd].
Qed.

Lemma sort_keys_sorted (l : list string) : Sorted strings.String.le (sort_keys l).
Proof. induction l as [|k l IH]; cbn [sort_keys]; [constructor | by apply insert_key_sorted]. Qed.

Lemma sort_keys_perm_eq (l l' : list string) : l ≡ₚ l' -> sort_keys l = sort_keys l'.
Proof.
  intros P. apply (@Sorted_unique _ strings.String.le _ _); [apply sort_keys_sorted.. |].
  rewrite (sort_keys_perm l), (sort_keys_perm l'). exact P.
Qed.

Lemma data_check_perm (p p' : list (string * string)) :
  NoDup (map fst p) -> p ≡ₚ p' -> data_check_string p = data_check_string p'.
Proof.
  intros H P. unfold data_check_string.
  rewrite (sort_keys_perm_eq (map fst p) (map fst p')) by (by apply Permutation_map).
  f_equal. apply List.map_ext. intros k. by rewrite (dict_get_perm k p p').
Qed.

(** X22: for init data whose field names are distinct, the order of the
    fields does not matter: any reordering has the same data-check string
    and is accepted or refused together with the original. *)
Theorem verify_field_order_irrelevant (sha : string -> string)
    (hmac : string -> string -> string) (J : Type) (json : string -> option J)
    (pairs pairs' : list (string * string)) (token : string) :
  NoDup (map fst pairs) -> pairs' ≡ₚ pairs ->
  data_check_string (fields_of pairs') = data_check_string (fields_of pairs) /\
  accepted J (verify_init_data sha hmac J json pairs' token) =
  accepted J (verify_init_data sha hmac J json pairs token).
Proof.
  intros H P.
  assert (H' : NoDup (map fst pairs')).
  { assert (M : map fst pairs' ≡ₚ map fst pairs) by (by apply Permutation_map).
    by rewrite M. }
  assert (D : data_check_string (dict_remove "hash" pairs') =
              data_check_string (dict_remove "hash" pairs)).
  { apply data_check_perm; [by apply dict_remove_nodup | by apply dict_remove_perm]. }
  unfold fields_of. rewrite !dict_of_pairs_nodup by done. split; [exact D|].
  unfold verify_init_data. cbv zeta. rewrite !dict_of_pairs_nodup by done.
  rewrite (dict_get_perm "hash" pairs' pairs H' P).
  destruct (dict_get "hash" pairs); [|done]. unfold signature. rewrite D.
  destruct (negb _); done.
Qed.

End SessionExtra.

Module MoreFacts.
Import TextFacts.

Lemma insert_sub_desc_perm (x : Z * submission_row) (l : list (Z * submission_row)) :
  insert_sub_desc x l ≡ₚ x :: l.
Proof.
  induction l as [|y l IH]; cbn [insert_sub_desc]; [done|].
  destruct (String.ltb _ _); [done|]. rewrite IH. by constructor.
Qed.

Lemma sort_sub_perm (l : list (Z * submission_row)) : fold_right insert_sub_desc [] l ≡ₚ l.
Proof. induction l as [|x l IH]; cbn [fold_right]; [done|]. rewrite insert_sub_desc_perm. by rewrite IH. Qed.

(** X24: [get_submissions] answers 403 to a caller who is neither admin
    nor verifier; to an admin or verifier it lists every submission of the
    table, pending or already reviewed, each with its file URL. *)
Theorem get_submissions_lists_all (admins : list Z) (uid : Z) (d : db) :
  (is_authorized admins uid d = false -> get_submissions admins uid d = None) /\
  (is_authorized admins uid d = true ->
   exists entries, get_submissions admins uid d = Some entries /\
     forall e, In e entries <->
       exists sid r, task_submissions d !! sid = Some r /\ e = submission_entry sid r).
Proof.
  assert (L : forall e, In e (map (fun sr => submission_entry (fst sr) (snd sr))
                 (fold_right insert_sub_desc [] (map_to_list (task_submissions d)))) <->
            exists sid r, task_submissions d !! sid = Some r /\ e = submission_entry sid r).
  { intros e. rewrite in_map_iff. split.
    - intros ([sid r] & <- & Hin). exists sid, r. split; [|done].
      apply elem_of_map_to_list, list_elem_of_In.
      exact (Permutation_in _ (sort_sub_perm _) Hin).
    - intros (sid & r & Hs & ->). exists (sid, r). split; [done|].
      apply (Permutation_in _ (Permutation_sym (sort_sub_perm _))).
      apply list_elem_of_In, elem_of_map_to_list. done. }
  unfold get_submissions, is_authorized.
  destruct (existsb (Z.eqb uid) admins), (bool_decide (uid ∈ verifiers d)); cbn [negb andb orb];
    split; intros H; try discriminate; try done.
  all: eexists; split; [reflexivity | exact L].
Qed.

Lemma basename_no_slash_result (p : string) : has_char slash (basename p) = false.
Proof.
  induction p as [|c r IH]; cbn [basename]; [done|].
  destruct (has_char slash r) eqn:H; [exact IH|].
  destruct (Ascii.eqb c slash) eqn:E; [exact H|]. cbn [has_char]. rewrite H, orb_false_r.
  destruct (Ascii.eqb slash c) eqn:E'; [|done]. apply Ascii.eqb_eq in E'. subst.
  by rewrite Ascii.eqb_refl in E.
Qed.

(** X25: [serve_upload] ignores any directory part of the requested name;
    whatever it serves is an existing file named [UPLOAD_DIR] joined with
    one slash-free name other than [""], ["."] and [".."]; and the names
    ["."] and [".."] (the upload directory and its parent) end in the
    server error. *)
Theorem serve_upload_confined (updir fname : string) (files : gset string) :
  serve_upload updir fname files = serve_upload updir (basename fname) files /\
  (forall p, serve_upload updir fname files = UploadFile p ->
     p ∈ files /\ exists b, has_char slash b = false /\ b ≠ ""%string /\ b ≠ "."%string /\
                            b ≠ ".."%string /\ p = path_join updir b) /\
  (basename fname = "."%string \/ basename fname = ".."%string ->
     serve_upload updir fname files = UploadServerError).
Proof.
  split; [|split].
  - unfold serve_upload. by rewrite (basename_no_slash (basename fname) (basename_no_slash_result fname)).
  - intros p. unfold serve_upload.
    destruct (String.eqb_spec (basename fname) ""); [discriminate|].
    destruct (String.eqb_spec (basename fname) "."); [discriminate|].
    destruct (String.eqb_spec (basename fname) ".."); [discriminate|]. cbn [orb].
    case_bool_decide as H; [intros [= <-] | discriminate].
    split; [done|]. eexists; split; [apply basename_no_slash_result | done].
  - unfold serve_upload. intros [-> | ->]; reflexivity.
Qed.

(** X26: the ad streak cycle: for a member whose streak counter is in
    [0, 2] (as in every reachable store), one ad credits exactly 100 coins
    and one view, moves the counter to [(counter + 1) mod 3], and sets a
    two-hour boost exactly on the third ad of the streak; the reply's
    "ads to next boost" is [3 - counter'] of the new row. *)
Theorem ad_watched_cycle (iso : Z -> string) (mem : Z -> bool) (now uid : Z) (uname : string)
    (d : db) (u : user_row) :
  mem uid = true -> users d !! uid = Some u -> 0 <= ad_counter u <= 2 ->
  let until := (iso (now + TWO_HOURS) ++ "Z")%string in
  exists u', users (snd (ad_watched iso mem now uid uname d)) !! uid = Some u' /\
    coins u' = coins u + AD_REWARD /\ ads_watched u' = ads_watched u + 1 /\
    ad_counter u' = (ad_counter u + 1) mod 3 /\
    boost_until u' = (if ad_counter u =? 2 then Some until else boost_until u) /\
    fst (ad_watched iso mem now uid uname d) =
      AdOk AD_REWARD (coins u') (ads_watched u') (3 - ad_counter u')
           (if ad_counter u =? 2 then Some until else None).
Proof.
  intros Hm U Hc until. pose proof (ad_watched_row iso mem now uid uname d Hm) as W.
  cbv zeta in W. rewrite U in W. destruct W as [E1 E2]. fold until in E1, E2.
  destruct (3 <=? ad_counter u + 1) eqn:C.
  - apply Z.leb_le in C. assert (ad_counter u = 2) as Hc2 by lia.
    eexists. split; [exact E2|]. rewrite E1. rewrite Hc2. cbn.
    repeat split; reflexivity.
  - apply Z.leb_gt in C. assert ((ad_counter u =? 2) = false) as Hc2 by (apply Z.eqb_neq; lia).
    eexists. split; [exact E2|]. rewrite E1, Hc2. cbn.
    repeat split; try reflexivity. symmetry. apply Z.mod_small. lia.
Qed.

Lemma drop_space_head (l : list (list ascii)) (x : list ascii) (m : list (list ascii)) :
  drop_space l = x :: m -> py_isspace (chunk_cp x) = false.
Proof.
  induction l as [|y l IH]; cbn [drop_space]; [discriminate|].
  destruct (py_isspace (chunk_cp y)) eqn:E; [exact IH|]. by intros [= <- _].
Qed.

Lemma drop_space_split (l : list (list ascii)) :
  exists P, l = P ++ drop_space l /\ Forall (fun c => py_isspace (chunk_cp c) = true) P.
Proof.
  induction l as [|y l [P [IH HP]]]; cbn [drop_space]; [by exists []|].
  destruct (py_isspace (chunk_cp y)) eqn:E.
  - exists (y :: P). split; [by rewrite IH at 1 | by constructor].
  - by exists [].
Qed.

(** [s.strip()] cuts the code points of [s] into leading whitespace, the
    result and trailing whitespace; the result neither starts nor ends with
    whitespace. *)
Lemma py_strip_split (s : string) :
  exists P C S, utf8_chunks (list_ascii_of_string s) = P ++ C ++ S /\
    Forall (fun c => py_isspace (chunk_cp c) = true) P /\
    Forall (fun c => py_isspace (chunk_cp c) = true) S /\
    (forall x, hd_error C = Some x -> py_isspace (chunk_cp x) = false) /\
    (forall x, hd_error (rev C) = Some x -> py_isspace (chunk_cp x) = false) /\
    py_strip s = string_of_list_ascii (concat C).
Proof.
  set (L := utf8_chunks (list_ascii_of_string s)).
  set (A := drop_space L). set (B := drop_space (rev A)).
  destruct (drop_space_split L) as [P [HP FP]]. fold A in HP.
  destruct (drop_space_split (rev A)) as [Q [HQ FQ]]. fold B in HQ.
  assert (HA : A = rev B ++ rev Q).
  { rewrite <- rev_app_distr, <- HQ. symmetry. apply rev_involutive. }
  exists P, (rev B), (rev Q). split; [by rewrite HP, HA at 1|].
  split; [done|]. split; [by apply Forall_rev|]. split; [|split].
  - intros x Hx. destruct (rev B) as [|y m] eqn:R; [discriminate|].
    injection Hx as <-. apply (drop_space_head L y (m ++ rev Q)). fold A. by rewrite HA.
  - intros x Hx. rewrite rev_involutive in Hx.
    destruct B as [|y m] eqn:EB; [discriminate|]. injection Hx as <-.
    apply (drop_space_head (rev A) y m). exact EB.
  - reflexivity.
Qed.

(** X27: a successful [add_task] comes from an admin with a positive
    reward, and stores the task under the new id with its title,
    description and link stripped; the stored title is non-empty, and it is
    the title's code points with the leading and trailing whitespace (the
    Unicode whitespace included) removed, starting and ending with a
    character that is not whitespace. *)
Theorem add_task_stores_stripped (admins : list Z) (uid : Z) (title description link : string)
    (r nid : Z) (d : db) :
  fst (add_task admins uid title description link r nid d) = AdminOk ->
  existsb (Z.eqb uid) admins = true /\ 0 < r /\
  tasks (snd (add_task admins uid title description link r nid d)) !! nid =
    Some (mk_task (py_strip title) (py_strip description) (py_strip link) r) /\
  py_strip title ≠ EmptyString /\
  exists P C S, utf8_chunks (list_ascii_of_string title) = P ++ C ++ S /\
    Forall (fun c => py_isspace (chunk_cp c) = true) P /\
    Forall (fun c => py_isspace (chunk_cp c) = true) S /\
    (forall x, hd_error C = Some x -> py_isspace (chunk_cp x) = false) /\
    (forall x, hd_error (rev C) = Some x -> py_isspace (chunk_cp x) = false) /\
    py_strip title = string_of_list_ascii (concat C).
Proof.
  unfold add_task. destruct (String.eqb (py_strip title) "" || (r <=? 0)) eqn:G;
    [discriminate|]. apply orb_false_iff in G as [G1 G2].
  destruct (existsb (Z.eqb uid) admins) eqn:A; [|discriminate]. intros _.
  split; [done|]. split; [lia|]. split; [by cbn; rewrite lookup_insert_eq|].
  split; [by apply String.eqb_neq|]. apply py_strip_split.
Qed.

(** X28: after an admin's [delete_task] the task listing holds exactly the
    other tasks, unchanged. *)
Theorem delete_task_unlisted (admins : list Z) (uid tid : Z) (d : db) :
  tid ≠ 0 -> existsb (Z.eqb uid) admins = true ->
  forall k t, (k, t) ∈ sort_desc (map_to_list (tasks (snd (delete_task admins uid tid d)))) <->
              k ≠ tid /\ tasks d !! k = Some t.
Proof.
  intros Ht Ha k t. unfold delete_task.
  rewrite (proj2 (Z.eqb_neq tid 0) Ht), Ha. cbn [negb snd tasks set_tasks].
  rewrite (FlowFacts.sort_desc_perm _), elem_of_map_to_list, lookup_delete_Some.
  naive_solver.
Qed.

End MoreFacts.

(* ------------------------------------------------------------------ *)
(** ** Concurrent daily claims *)

Module RaceFacts.

Section LastDaily.
Variable uid : Z.

Lemma ld_insert_or_ignore (k : Z) (v : user_row) (m : gmap Z user_row) :
  last_daily v = None ->
  match insert_or_ignore k v m !! uid with Some u => last_daily u | None => None end =
  match m !! uid with Some u => last_daily u | None => None end.
Proof.
  intros Hv. unfold insert_or_ignore. destruct (m !! k) eqn:E; [done|].
  destruct (decide (k = uid)) as [<-|Hne].
  - by rewrite lookup_insert_eq, E.
  - by rewrite lookup_insert_ne.
Qed.

Lemma ld_alter (f : user_row -> user_row) (k : Z) (m : gmap Z user_row) :
  (forall u, last_daily (f u) = last_daily u) ->
  match alter f k m !! uid with Some u => last_daily u | None => None end =
  match m !! uid with Some u => last_daily u | None => None end.
Proof.
  intros Hf. destruct (decide (k = uid)) as [<-|Hne].
  - rewrite lookup_alter_eq. destruct (m !! k); cbn; [apply Hf | done].
  - by rewrite lookup_alter_ne.
Qed.

Lemma ld_alter_ne (f : user_row -> user_row) (k : Z) (m : gmap Z user_row) :
  k ≠ uid ->
  match alter f k m !! uid with Some u => last_daily u | None => None end =
  match m !! uid with Some u => last_daily u | None => None end.
Proof. intros Hne. by rewrite lookup_alter_ne. Qed.

End LastDaily.

Ltac ld_simpl :=
  unfold last_daily_of, credit, set_users, set_referrals, set_tasks, set_submissions,
    set_verifiers in *; cbn [users snd fst] in *;
  repeat first [ rewrite ld_alter_ne by done
               | rewrite ld_alter by (intros; reflexivity)
               | rewrite ld_insert_or_ignore by reflexivity ];
  try reflexivity.

(** No other handler changes the [last_daily] of [uid]: they add to
    balances and counters, set boosts, create rows with an empty
    [last_daily], or leave the users table alone. *)
Lemma other_step_last_daily (fi : string -> option Z) (iso date strf : Z -> string)
    (mem : Z -> bool) (admins : list Z) (updir : string) (uid : Z) (d d1 : db) :
  other_step fi iso date strf mem admins updir uid d d1 ->
  last_daily_of uid d1 = last_daily_of uid d.
Proof.
  destruct 1.
  - unfold bot_start. destruct (parse_start_arg args) as [|r|]; [ld_simpl| |done].
    destruct (_ && _); ld_simpl.
  - unfold ad_watched. destruct (mem u); cbn [negb]; [|done]. cbv zeta.
    destruct (alter _ u _ !! u) as [row|]; [|done].
    destruct (3 <=? _); cbn iota beta; (destruct (_ !! u); [ld_simpl | done]).
  - unfold daily_claim. cbv zeta. case_bool_decide; ld_simpl.
  - unfold review_submission. repeat (case_match; cbn [snd]); ld_simpl.
  - unfold delete_task. repeat (case_match; cbn [snd]); ld_simpl.
  - unfold add_task. repeat (case_match; cbn [snd]); ld_simpl.
  - unfold submit_proof. repeat (case_match; cbn [snd fst]); ld_simpl.
  - unfold add_verifier. repeat (case_match; cbn [snd]); ld_simpl.
  - unfold remove_verifier. repeat (case_match; cbn [snd]); ld_simpl.
Qed.

Lemma daily_claim_ok (iso date : Z -> string) (t uid : Z) (uname : string) (d : db) :
  last_daily_of uid d ≠ Some (date t) ->
  fst (daily_claim iso date t uid uname d) = DailyOk DAILY_REWARD.
Proof.
  intros H. unfold daily_claim. cbv zeta. rewrite insert_or_ignore_eq. unfold last_daily_of in H.
  destruct (users d !! uid); cbn iota; rewrite bool_decide_eq_false_2; done.
Qed.

(** Once [uid] has claimed on [day], every later claim of the day is
    refused (or fails on the lock). *)
Lemma day_run_claimed (fi : string -> option Z) (iso date strf : Z -> string)
    (mem : Z -> bool) (admins : list Z) (updir : string) (uid : Z) (day : string)
    (d : db) (outs : list (option daily_result)) (d' : db) :
  day_run fi iso date strf mem admins updir uid day d outs d' ->
  last_daily_of uid d = Some day ->
  Forall (fun o => o = None \/ o = Some DailyAlready) outs.
Proof.
  induction 1 as [d|now uname d outs d' Hday _ IH|d outs d' _ IH|d d1 outs d' Ho _ IH];
    intros Hld.
  - constructor.
  - unfold last_daily_of in Hld. destruct (users d !! uid) as [row|] eqn:U; [|discriminate].
    rewrite (HandlerFacts.daily_claim_already iso date now uid uname d row U) in IH |- *
      by congruence.
    constructor; [by right|]. apply IH. cbn [snd]. unfold last_daily_of. by rewrite U.
  - constructor; [by left | by apply IH].
  - apply IH. by rewrite (other_step_last_daily fi iso date strf mem admins updir uid d d1 Ho).
Qed.

Lemma count_ok_refused (outs : list (option daily_result)) :
  Forall (fun o => o = None \/ o = Some DailyAlready) outs -> count_ok outs = 0%nat.
Proof. unfold count_ok. induction 1 as [|o l [-> | ->] _ IH]; done. Qed.

Lemma refused_answered (outs : list (option daily_result)) :
  Forall (fun o => o = None \/ o = Some DailyAlready) outs ->
  Forall (fun o => o ≠ None) outs -> outs = repeat (Some DailyAlready) (length outs).
Proof.
  induction 1 as [|o l Ho _ IH]; intros H; [done|].
  inversion H as [|? ? Hn Hl]; subst. destruct Ho as [-> | ->]; [done|].
  cbn [length repeat]. by rewrite <- IH.
Qed.

(** C9: N concurrent daily claims of a user on one UTC day, taking effect
    one after the other with any other handlers' runs in between: if the
    user has not claimed that day before, at most one claim is credited,
    and when no claim fails on the database lock, the first one to take
    effect is credited with 50 coins and the N - 1 others answer
    "already claimed". *)
Theorem concurrent_daily_claims_one_credit (fi : string -> option Z)
    (iso date strf : Z -> string) (mem : Z -> bool) (admins : list Z) (updir : string)
    (uid : Z) (day : string) (d : db) (outs : list (option daily_result)) (d' : db) :
  day_run fi iso date strf mem admins updir uid day d outs d' ->
  last_daily_of uid d ≠ Some day ->
  (count_ok outs <= 1)%nat /\
  (Forall (fun o => o ≠ None) outs -> outs ≠ [] ->
   outs = Some (DailyOk DAILY_REWARD) :: repeat (Some DailyAlready) (length outs - 1)).
Proof.
  induction 1 as [d|now uname d outs d' Hday R _|d outs d' _ IH|d d1 outs d' Ho _ IH];
    intros Hld.
  - split; [cbn; lia | done].
  - assert (Ok : fst (daily_claim iso date now uid uname d) = DailyOk DAILY_REWARD).
    { apply daily_claim_ok. by rewrite Hday. }
    assert (Rf : Forall (fun o => o = None \/ o = Some DailyAlready) outs).
    { apply (day_run_claimed fi iso date strf mem admins updir uid day _ outs d' R).
      destruct (HandlerFacts.daily_claim_marks_day iso date now uid uname d) as (row & U & L).
      unfold last_daily_of. rewrite U, L. by rewrite Hday. }
    rewrite Ok. split.
    + unfold count_ok. cbn [List.filter length]. fold (count_ok outs).
      rewrite count_ok_refused by done. lia.
    + intros Hs _. inversion Hs as [|? ? _ Hs']; subst.
      replace (length (Some (DailyOk DAILY_REWARD) :: outs) - 1)%nat with (length outs) by (cbn; lia).
      f_equal. by apply refused_answered.
  - destruct (IH Hld) as [C _]. split; [exact C|].
    intros Hs. inversion Hs as [|? ? Hn _]. by contradiction Hn.
  - apply IH. by rewrite (other_step_last_daily fi iso date strf mem admins updir uid d d1 Ho).
Qed.

Section Witness.
Import TestEnv.

Definition race_d1 : db := snd (daily_claim isoformat date_isoformat 5 7 "alice" db0).
Definition race_d2 : db := snd (ad_watched isoformat member 6 7 "alice" race_d1).
Definition race_d3 : db := snd (daily_claim isoformat date_isoformat 6 7 "alice" race_d2).
Definition race_outs : list (option daily_result) :=
  [Some (fst (daily_claim isoformat date_isoformat 5 7 "alice" db0));
   Some (fst (daily_claim isoformat date_isoformat 6 7 "alice" race_d2)); None].

(** Alice claims twice on day 0 of the test clock, an ad of hers running
    in between, and a third claim fails on the lock. *)
Lemma concurrent_daily_claims_one_credit_witness :
  (count_ok race_outs <= 1)%nat /\
  (Forall (fun o => o ≠ None) race_outs -> race_outs ≠ [] ->
   race_outs = Some (DailyOk DAILY_REWARD) :: repeat (Some DailyAlready) (length race_outs - 1)).
Proof.
  apply (concurrent_daily_claims_one_credit fromisoformat isoformat date_isoformat isoformat
           member admins "/data/uploads" 7 (date_isoformat 5) db0 race_outs race_d3).
  - unfold race_outs, race_d3. apply run_claim; [reflexivity|]. fold race_d1.
    apply (run_other _ _ _ _ _ _ _ _ _ race_d1 race_d2); [apply other_ad_watched|].
    apply run_claim; [reflexivity|]. apply run_locked. apply run_done.
  - vm_compute. discriminate.
Defined.

Example race_answers :
  race_outs = [Some (DailyOk 50); Some DailyAlready; None].
Proof. vm_compute. reflexivity. Qed.

End Witness.

End RaceFacts.

(* ------------------------------------------------------------------ *)
(** ** The extra properties at concrete inputs *)

Module ExtraInstances.
Import TestEnv.

Definition updir : string := "/data/uploads".

(** Alice starts the bot, an admin adds a task, Bob starts it through
    Alice's link, Alice submits a proof. *)
Definition reach_store : db :=
  snd (fst (submit_proof isoformat isoformat member updir 5 7 "alice" 1 "shot.png" 1
    (bot_start isoformat 4 9 "bob" ["7"%string]
       (snd (add_task admins 1 "follow" "us" "x" 50 1 (bot_start isoformat 0 7 "alice" [] empty_db))))
    ∅)).

Lemma reach_store_reachable :
  reachable fromisoformat isoformat date_isoformat isoformat member admins updir reach_store.
Proof.
  unfold reach_store.
  eapply reach_step; [|apply step_submit_proof; reflexivity].
  eapply reach_step; [|apply step_bot_start].
  eapply reach_step; [|apply step_add_task; reflexivity].
  eapply reach_step; [|apply step_bot_start].
  apply reach_empty.
Qed.

Lemma db0_store_inv : store_inv db0.
Proof.
  split; [|split; [|split]].
  - intros t r H. cbn [db0 tasks] in H.
    apply lookup_insert_Some in H as [[_ <-]|[_ H]]; [vm_compute; reflexivity|].
    by rewrite lookup_empty in H.
  - intros u r H. cbn [db0 users] in H.
    apply lookup_insert_Some in H as [[_ <-]|[_ H]]; [unfold row_ok; simpl; lia|].
    by rewrite lookup_empty in H.
  - intros s r H. cbn [db0 task_submissions] in H.
    apply lookup_insert_Some in H as [[_ <-]|[_ H]].
    + split; [by eexists | left; split; reflexivity].
    + by rewrite lookup_empty in H.
  - intros a b H. cbn [db0 referrals] in H. set_solver.
Qed.

Lemma step_preserves_store_inv_witness :
  store_inv (snd (review_submission fromisoformat admins 1000 1 5 "approve" "" db0)) /\
  users_grow db0 (snd (review_submission fromisoformat admins 1000 1 5 "approve" "" db0)).
Proof.
  apply (StoreFacts.step_preserves_store_inv fromisoformat isoformat date_isoformat isoformat
           member admins updir db0); [apply db0_store_inv | apply step_review].
Defined.

Lemma reachable_task_rewards_positive_witness :
  0 < reward (mk_task "follow" "us" "x" 50).
Proof.
  apply (StoreFacts.reachable_task_rewards_positive fromisoformat isoformat date_isoformat
           isoformat member admins updir reach_store 1);
    [apply reach_store_reachable | reflexivity].
Defined.

Lemma reachable_user_rows_bounded_witness :
  let r := mk_user "alice" 300 None (Some "0"%string) 0 0 None None in
  0 <= coins r /\ 0 <= ads_watched r /\ 0 <= ad_counter r <= 2.
Proof.
  apply (StoreFacts.reachable_user_rows_bounded fromisoformat isoformat date_isoformat
           isoformat member admins updir reach_store 7);
    [apply reach_store_reachable | reflexivity].
Defined.

Lemma reachable_submissions_well_formed_witness :
  let r := mk_submission 7 1 "/data/uploads/7_5.png" "pending" "5" None None in
  is_Some (users reach_store !! sub_user_id r) /\
  ((status r = "pending"%string /\ reviewed_by r = None) \/
   ((status r = "approved"%string \/ status r = "rejected"%string) /\ is_Some (reviewed_by r))).
Proof.
  apply (StoreFacts.reachable_submissions_well_formed fromisoformat isoformat date_isoformat
           isoformat member admins updir reach_store 1);
    [apply reach_store_reachable | reflexivity].
Defined.

Lemma reachable_approval_credit_lands_witness :
  let s := mk_submission 7 1 "/data/uploads/7_5.png" "pending" "5" None None in
  exists award u u',
    fst (review_submission fromisoformat admins 1000 1 1 "approve" "" reach_store)
      = ReviewApproved award /\
    0 <= award /\
    users reach_store !! sub_user_id s = Some u /\
    users (snd (review_submission fromisoformat admins 1000 1 1 "approve" "" reach_store))
      !! sub_user_id s = Some u' /\
    coins u' = coins u + award.
Proof.
  apply (StoreFacts.reachable_approval_credit_lands fromisoformat isoformat date_isoformat
           isoformat member admins updir 1000 1 1 "" reach_store);
    [apply reach_store_reachable | lia | reflexivity | reflexivity | reflexivity].
Defined.

Lemma reachable_referral_edges_witness :
  7 ≠ 0 /\ 7 ≠ 9 /\ is_Some (users reach_store !! 9).
Proof.
  apply (StoreFacts.reachable_referral_edges fromisoformat isoformat date_isoformat
           isoformat member admins updir reach_store 7 9);
    [apply reach_store_reachable | apply (bool_decide_eq_true_1 _); vm_compute; reflexivity].
Defined.

Lemma review_reject_pays_nothing_witness :
  let d' := snd (review_submission fromisoformat admins 1000 1 5 "reject" "blurry" db0) in
  users d' = users db0 /\ tasks d' = tasks db0 /\ verifiers d' = verifiers db0 /\
  referrals d' = referrals db0 /\
  exists s, task_submissions db0 !! 5 = Some s /\ status s = "pending"%string /\
    task_submissions d' !! 5 = Some (set_review "rejected" 1 "blurry" s).
Proof.
  apply (HandlerFacts.review_reject_pays_nothing fromisoformat admins 1000 1 5 "reject" "blurry"
           db0); reflexivity.
Defined.

Lemma review_at_most_once_witness :
  let d1 := snd (review_submission fromisoformat admins 1000 1 5 "approve" "" db0) in
  (forall a, fst (review_submission fromisoformat admins 1001 1 5 "reject" "x" d1)
               ≠ ReviewApproved a) /\
  fst (review_submission fromisoformat admins 1001 1 5 "reject" "x" d1) ≠ ReviewRejected /\
  snd (review_submission fromisoformat admins 1001 1 5 "reject" "x" d1) = d1.
Proof.
  apply (HandlerFacts.review_at_most_once fromisoformat admins 1000 1 5 "approve" "" db0
           1001 1 "reject" "x").
  left. exists 50. reflexivity.
Defined.

Lemma balance_boost_matches_review_witness :
  fst (review_submission fromisoformat admins 1000 1 5 "approve" "" Instances.db_boosted) =
    ReviewApproved (if true then reward task50 * 2 else reward task50).
Proof.
  apply (HandlerFacts.balance_boost_matches_review fromisoformat admins 1000 1 5 ""
           Instances.db_boosted sub5 task50 10 0 true);
    [reflexivity | lia | reflexivity | reflexivity | reflexivity | reflexivity].
Defined.

Lemma daily_claim_same_day_refused_witness :
  let d1 := snd (daily_claim isoformat date_isoformat 5 7 "alice" db0) in
  daily_claim isoformat date_isoformat 6 7 "alice" d1 = (DailyAlready, d1).
Proof.
  apply (HandlerFacts.daily_claim_same_day_refused isoformat date_isoformat 5 6 7 "alice" "alice"
           db0); reflexivity.
Defined.

Lemma bot_start_no_referral_witness :
  referrals (bot_start isoformat 0 9 "bob" ["abc"%string] db0) = referrals db0 /\
  forall k, k ≠ 9 -> users (bot_start isoformat 0 9 "bob" ["abc"%string] db0) !! k = users db0 !! k.
Proof.
  apply (HandlerFacts.bot_start_no_referral isoformat 0 9 "bob" ["abc"%string] db0).
  left. reflexivity.
Defined.


(** A title of a space and a no-break space (U+00A0, bytes C2 A0). *)
Definition nbsp_title : string := String " " (String (ascii_of_nat 194) (String (ascii_of_nat 160) EmptyString)).

Lemma add_task_blank_title_witness :
  add_task admins 1 nbsp_title "d" "l" 10 2 db0 =
    (AdminHTTPError 400 "init_data, title and positive reward required", db0).
Proof.
  apply (HandlerFacts.add_task_blank_title admins 1 nbsp_title "d" "l" 10 2 db0).
  unfold nbsp_title. vm_compute (utf8_chunks _). repeat constructor.
Defined.


Lemma extract_channel_username_spec_witness :
  extract_channel_username ("https://t.me/news" ++ String slash EmptyString) =
    extract_channel_username "https://t.me/news" /\
  (has_char slash "news" = false -> "news"%string ≠ EmptyString ->
   extract_channel_username ("https://t.me" ++ String slash "news") = "news"%string).
Proof.
  pose proof (FlowFacts.extract_channel_username_spec "https://t.me/news" "https://t.me" "news")
    as [E1 E2].
  split; [exact E1|]. intros _ _. apply E2; [reflexivity | discriminate].
Defined.


Lemma tasks_pages_concat_witness :
  concat (map (fun p => match get_tasks (Z.of_nat p) 2 db0 with
                        | Some (rows, _) => rows | None => [] end) (seq 1 2))
  = take (2 * Z.to_nat 2) (sort_desc (map_to_list (tasks db0))).
Proof. apply (FlowFacts.tasks_pages_concat db0 2 2). lia. Defined.

Lemma verify_field_order_irrelevant_witness :
  let pairs := [("user", "u"); ("hash", "h"); ("auth_date", "1")]%string in
  let pairs' := [("hash", "h"); ("user", "u"); ("auth_date", "1")]%string in
  Session.data_check_string (Session.fields_of pairs') = Session.data_check_string (Session.fields_of pairs) /\
  Session.accepted unit (Session.verify_init_data toy_sha toy_hmac unit no_json pairs' "tok") =
  Session.accepted unit (Session.verify_init_data toy_sha toy_hmac unit no_json pairs "tok").
Proof.
  apply (SessionExtra.verify_field_order_irrelevant toy_sha toy_hmac unit no_json).
  - apply (bool_decide_eq_true_1 _). vm_compute. reflexivity.
  - constructor.
Defined.

Lemma fields_last_value_wins_witness :
  Session.dict_get "user" (Session.fields_of ([("user", "a")] ++ ("user", "b") :: [("auth_date", "1")]))%string
    = Some "b"%string.
Proof.
  apply (SessionExtra.fields_last_value_wins [("user", "a")]%string [("auth_date", "1")]%string
           "user" "b"); [discriminate|]. cbn. intros [H|[]]. discriminate.
Defined.

Lemma get_submissions_lists_all_witness :
  exists entries, get_submissions admins 1 db0 = Some entries /\
    forall e, In e entries <->
      exists sid r, task_submissions db0 !! sid = Some r /\ e = submission_entry sid r.
Proof. apply (proj2 (MoreFacts.get_submissions_lists_all admins 1 db0)). reflexivity. Defined.

Lemma serve_upload_confined_witness :
  "/data/uploads/7_5.png"%string ∈ ({["/data/uploads/7_5.png"%string]} : gset string) /\
  exists b, has_char slash b = false /\ b ≠ ""%string /\ b ≠ "."%string /\ b ≠ ".."%string /\
            "/data/uploads/7_5.png"%string = path_join updir b.
Proof.
  apply (proj1 (proj2 (MoreFacts.serve_upload_confined updir "../../7_5.png"
                         {["/data/uploads/7_5.png"%string]}))).
  vm_compute. reflexivity.
Defined.

Lemma ad_watched_cycle_witness :
  let until := (isoformat (0 + TWO_HOURS) ++ "Z")%string in
  exists u', users (snd (ad_watched isoformat member 0 7 "alice" db0)) !! 7 = Some u' /\
    coins u' = coins alice + AD_REWARD /\ ads_watched u' = ads_watched alice + 1 /\
    ad_counter u' = (ad_counter alice + 1) mod 3 /\
    boost_until u' = (if ad_counter alice =? 2 then Some until else boost_until alice) /\
    fst (ad_watched isoformat member 0 7 "alice" db0) =
      AdOk AD_REWARD (coins u') (ads_watched u') (3 - ad_counter u')
           (if ad_counter alice =? 2 then Some until else None).
Proof.
  apply (MoreFacts.ad_watched_cycle isoformat member 0 7 "alice" db0 alice);
    [reflexivity | reflexivity | simpl; lia].
Defined.

(** The title U+00A0 "Follow " (a no-break space in front). *)
Definition nbsp_follow : string := String (ascii_of_nat 194) (String (ascii_of_nat 160) "Follow ").

Lemma add_task_stores_stripped_witness :
  existsb (Z.eqb 1) admins = true /\ 0 < 10 /\
  tasks (snd (add_task admins 1 nbsp_follow "d" "l" 10 2 db0)) !! 2 =
    Some (mk_task (py_strip nbsp_follow) (py_strip "d") (py_strip "l") 10) /\
  py_strip nbsp_follow ≠ EmptyString /\
  exists P C S, utf8_chunks (list_ascii_of_string nbsp_follow) = P ++ C ++ S /\
    Forall (fun c => py_isspace (chunk_cp c) = true) P /\
    Forall (fun c => py_isspace (chunk_cp c) = true) S /\
    (forall x, hd_error C = Some x -> py_isspace (chunk_cp x) = false) /\
    (forall x, hd_error (rev C) = Some x -> py_isspace (chunk_cp x) = false) /\
    py_strip nbsp_follow = string_of_list_ascii (concat C).
Proof.
  apply (MoreFacts.add_task_stores_stripped admins 1 nbsp_follow "d" "l" 10 2 db0).
  vm_compute. reflexivity.
Defined.

Lemma delete_task_unlisted_witness :
  (1, task50) ∈ sort_desc (map_to_list (tasks (snd (delete_task admins 1 1 db0)))) <->
  1 ≠ 1 /\ tasks db0 !! 1 = Some task50.
Proof. apply (MoreFacts.delete_task_unlisted admins 1 1 db0); [lia | reflexivity]. Defined.

End ExtraInstances.
